(** * Verification of the assessment backend (backend/server.py)

    A shallow embedding of the FastAPI service: the pydantic models, the
    scoring function, the five route handlers, and the parts of the Python
    standard library ([datetime.isoformat], [datetime.fromisoformat],
    [strftime]), of the MongoDB driver ([insert_one], [find/sort/to_list])
    and of openpyxl ([ws.append], [wb.save]) that the handlers call. *)

From Stdlib Require Import ZArith Ascii String List Sorting.Sorted Sorting.Permutation.
From stdpp Require Import base strings gmap list.

Set Warnings "-register-all".
Local Open Scope Z_scope.

(** ** Python values *)

(** [datetime] objects: the civil fields and the UTC offset of the attached
    [tzinfo] in minutes ([None] for a naive datetime). *)
Record datetime := mk_datetime {
  year : Z; month : Z; day : Z;
  hour : Z; minute : Z; second : Z; microsecond : Z;
  tzinfo : option Z
}.

(** The dynamically typed values that travel through the service: decoded
    JSON request bodies, [model_dump()] dictionaries and MongoDB documents.
    A float keeps its decimal literal [mantissa * 10^exponent]. *)
Inductive pyval :=
| VNone
| VBool (b : bool)
| VInt (z : Z)
| VFloat (mantissa exponent : Z)
| VStr (s : string)
| VDatetime (d : datetime)
| VList (l : list pyval)
| VDict (d : gmap string pyval).

(** A MongoDB document, a [model_dump()] dictionary, a decoded JSON object. *)
Abbreviation doc := (gmap string pyval).

(** [dict.get(key, default)] *)
Definition get (d : doc) (key : string) (default : pyval) : pyval :=
  match d !! key with Some v => v | None => default end.

(** ** The [datetime] methods used by the handlers *)

Module Datetime.

(** [timezone.utc] *)
Definition utc : option Z := Some 0.

Definition is_leap (y : Z) : bool :=
  (y mod 4 =? 0) && (negb (y mod 100 =? 0) || (y mod 400 =? 0)).

Definition days_in_month (y m : Z) : Z :=
  if m =? 2 then (if is_leap y then 29 else 28)
  else if (m =? 4) || (m =? 6) || (m =? 9) || (m =? 11) then 30
  else 31.

(** The invariant every Python [datetime] object satisfies (its constructor
    raises [ValueError] otherwise); offsets are whole minutes strictly
    inside one day. *)
Definition valid (d : datetime) : bool :=
  (1 <=? year d) && (year d <=? 9999) &&
  (1 <=? month d) && (month d <=? 12) &&
  (1 <=? day d) && (day d <=? days_in_month (year d) (month d)) &&
  (0 <=? hour d) && (hour d <? 24) &&
  (0 <=? minute d) && (minute d <? 60) &&
  (0 <=? second d) && (second d <? 60) &&
  (0 <=? microsecond d) && (microsecond d <? 1000000) &&
  match tzinfo d with
  | None => true
  | Some off => (-1440 <? off) && (off <? 1440)
  end.

(** *** Formatting *)

(** The decimal digit of the units of [n]. *)
Definition digit (n : Z) : ascii := ascii_of_N (Z.to_N (48 + n mod 10)).

(** [%02d], [%04d] and [%06d] on a number that fits the width, prepended
    to [rest]. *)
Definition pad2 (n : Z) (rest : string) : string :=
  String (digit (n / 10)) (String (digit n) rest).
Definition pad4 (n : Z) (rest : string) : string :=
  pad2 (n / 100) (pad2 n rest).
Definition pad6 (n : Z) (rest : string) : string :=
  pad2 (n / 10000) (pad4 n rest).

(** The UTC offset suffix of [isoformat]: nothing for a naive datetime,
    [+HH:MM] or [-HH:MM] otherwise. *)
Definition format_offset (tz : option Z) : string :=
  match tz with
  | None => ""
  | Some off =>
      String (if off <? 0 then "-"%char else "+"%char)
        (pad2 (Z.abs off / 60) (String ":" (pad2 (Z.abs off mod 60) "")))
  end.

(** The part of [isoformat] after the seconds: the fraction is printed
    only when [microsecond] is not 0. *)
Definition tail (us : Z) (tz : option Z) : string :=
  if us =? 0 then format_offset tz
  else String "." (pad6 us (format_offset tz)).

(** [datetime.isoformat()]: [YYYY-MM-DDTHH:MM:SS[.ffffff][+HH:MM]] *)
Definition isoformat (d : datetime) : string :=
  pad4 (year d) (String "-" (pad2 (month d) (String "-" (pad2 (day d)
    (String "T" (pad2 (hour d) (String ":" (pad2 (minute d) (String ":"
      (pad2 (second d) (tail (microsecond d) (tzinfo d)))))))))))).

(** [%Y] of a year from 1 to 9999 as CPython prints it on Linux, where the
    C library does not pad: the year in decimal, so three digits for the
    year 999 ([isoformat] pads to four, [%Y] does not; from the year 1000
    on the two agree). *)
Definition format_year (y : Z) (rest : string) : string :=
  if y <? 10 then String (digit y) rest
  else if y <? 100 then pad2 y rest
  else if y <? 1000 then String (digit (y / 100)) (pad2 y rest)
  else pad4 y rest.

(** [datetime.strftime('%Y-%m-%d %H:%M:%S')] *)
Definition strftime (d : datetime) : string :=
  format_year (year d) (String "-" (pad2 (month d) (String "-" (pad2 (day d)
    (String " " (pad2 (hour d) (String ":" (pad2 (minute d) (String ":"
      (pad2 (second d) "")))))))))).

(** *** Parsing *)

Definition digit_val (c : ascii) : option Z :=
  let n := Z.of_N (N_of_ascii c) in
  if (48 <=? n) && (n <=? 57) then Some (n - 48) else None.

Definition parse2 (s : string) : option (Z * string) :=
  match s with
  | String a (String b rest) =>
      x ← digit_val a; y ← digit_val b; Some (10 * x + y, rest)
  | _ => None
  end.

Definition parse4 (s : string) : option (Z * string) :=
  '(x, s1) ← parse2 s; '(y, s2) ← parse2 s1; Some (100 * x + y, s2).

Definition parse6 (s : string) : option (Z * string) :=
  '(x, s1) ← parse2 s; '(y, s2) ← parse4 s1; Some (10000 * x + y, s2).

Definition parse3 (s : string) : option (Z * string) :=
  match s with
  | String a rest => x ← digit_val a; '(y, s1) ← parse2 rest; Some (100 * x + y, s1)
  | _ => None
  end.

(** Consume the character [c]. *)
Definition expect (c : ascii) (s : string) : option string :=
  match s with
  | String a rest => if Ascii.eqb a c then Some rest else None
  | EmptyString => None
  end.

(** The optional [+HH:MM] / [-HH:MM] suffix, which must end the string. *)
Definition parse_offset (s : string) : option (option Z) :=
  match s with
  | EmptyString => Some None
  | String c rest =>
      sign ← (if Ascii.eqb c "+" then Some 1
              else if Ascii.eqb c "-" then Some (-1) else None);
      '(h, s1) ← parse2 rest;
      s2 ← expect ":" s1;
      '(m, s3) ← parse2 s2;
      match s3 with
      | EmptyString =>
          if (h <? 24) && (m <? 60) then Some (Some (sign * (60 * h + m))) else None
      | _ => None
      end
  end.

(** The optional [.fff] or [.ffffff] fraction, in microseconds. *)
Definition parse_fraction (s : string) : option (Z * string) :=
  match s with
  | String "." rest =>
      match parse6 rest with
      | Some r => Some r
      | None => '(ms, s1) ← parse3 rest; Some (1000 * ms, s1)
      end
  | _ => Some (0, s)
  end.

(** [HH[:MM[:SS[.fff[fff]]]]] followed by the offset. *)
Definition parse_time (s : string) : option (Z * Z * Z * Z * option Z) :=
  '(h, s1) ← parse2 s;
  '(mi, s2) ← match s1 with
              | String ":" r => parse2 r
              | _ => Some (0, s1)
              end;
  '(sec, us, s3) ← match s1, s2 with
                   | String ":" _, String ":" r =>
                       '(sec, r1) ← parse2 r;
                       '(us, r2) ← parse_fraction r1;
                       Some (sec, us, r2)
                   | _, _ => Some (0, 0, s2)
                   end;
  tz ← parse_offset s3;
  if (h <? 24) && (mi <? 60) && (sec <? 60) then Some (h, mi, sec, us, tz) else None.

(** [datetime.fromisoformat] on the strings [isoformat] writes: the format
    [YYYY-MM-DD[*HH[:MM[:SS[.fff[fff]]]][+HH:MM]]] with any single byte as
    separator; [None] stands for [ValueError]. Every string accepted here
    is accepted by Python with the same result. Python accepts more, which
    this grammar rejects: offsets with seconds, a separator of several
    bytes and, from 3.11 on, the [Z] suffix, the basic format without
    dashes, week dates and fractions of any length. The properties below
    use a rejection only as the case in which the handler raises. *)
Definition fromisoformat (s : string) : option datetime :=
  '(y, s1) ← parse4 s;
  s2 ← expect "-" s1;
  '(m, s3) ← parse2 s2;
  s4 ← expect "-" s3;
  '(d, s5) ← parse2 s4;
  if (1 <=? y) && (1 <=? m) && (m <=? 12) && (1 <=? d) && (d <=? days_in_month y m)
  then
    match s5 with
    | EmptyString => Some (mk_datetime y m d 0 0 0 0 None)
    | String _ s6 =>
        '(h, mi, sec, us, tz) ← parse_time s6;
        Some (mk_datetime y m d h mi sec us tz)
    end
  else None.

(** Comparison of two datetimes that carry the same [tzinfo], as
    [datetime.__lt__] does it: field by field. *)
Definition compare (a b : datetime) : comparison :=
  match year a ?= year b with Eq =>
  match month a ?= month b with Eq =>
  match day a ?= day b with Eq =>
  match hour a ?= hour b with Eq =>
  match minute a ?= minute b with Eq =>
  match second a ?= second b with Eq =>
    microsecond a ?= microsecond b
  | c => c end | c => c end | c => c end | c => c end | c => c end | c => c end.

Definition leb (a b : datetime) : bool :=
  match compare a b with Gt => false | _ => true end.

(** Two comparisons chained lexicographically. *)
Definition lex (c k : comparison) : comparison :=
  match c with Eq => k | _ => c end.

(** The digits-and-separators shape [YYYY-MM-DD HH:MM:SS]. *)
Definition is_digit (c : ascii) : bool :=
  match digit_val c with Some _ => true | None => false end.

Definition is_timestamp_pattern (s : string) : bool :=
  match list_ascii_of_string s with
  | [y1; y2; y3; y4; d1; m1; m2; d2; a1; a2; sp; h1; h2; c1; n1; n2; c2; s1; s2] =>
      forallb is_digit [y1; y2; y3; y4; m1; m2; a1; a2; h1; h2; n1; n2; s1; s2]
      && Ascii.eqb d1 "-" && Ascii.eqb d2 "-" && Ascii.eqb sp " "
      && Ascii.eqb c1 ":" && Ascii.eqb c2 ":"
  | _ => false
  end.

End Datetime.

(** ** Models (server.py, lines 36-84) *)

Module Answer.
Record t := mk { question_id : Z; value : Z }.
Definition model_dump (a : t) : pyval :=
  VDict (list_to_map [("question_id", VInt (question_id a)); ("value", VInt (value a))]).
End Answer.

Module AssessmentSubmission.
Record t := mk {
  name : string; age : string; gender : string; date : string; mobile : string;
  answers : list Answer.t
}.
End AssessmentSubmission.

Module Assessment.
Record t := mk {
  id : string;
  name : string; age : string; gender : string; date : string; mobile : string;
  answers : list Answer.t;
  score : Z;
  result : string;
  timestamp : datetime
}.
(** [model_dump()] turns the nested models into dictionaries and leaves
    the [datetime] as it is. *)
Definition model_dump (a : t) : doc :=
  list_to_map
    [("id", VStr (id a)); ("name", VStr (name a)); ("age", VStr (age a));
     ("gender", VStr (gender a)); ("date", VStr (date a));
     ("mobile", VStr (mobile a));
     ("answers", VList (map Answer.model_dump (answers a)));
     ("score", VInt (score a)); ("result", VStr (result a));
     ("timestamp", VDatetime (timestamp a))].
(** The document that stands for the record in the collection: the
    fields of the model, the timestamp as its ISO string. *)
Definition document (a : t) : doc :=
  list_to_map
    [("id", VStr (id a)); ("name", VStr (name a)); ("age", VStr (age a));
     ("gender", VStr (gender a)); ("date", VStr (date a));
     ("mobile", VStr (mobile a));
     ("answers", VList (map Answer.model_dump (answers a)));
     ("score", VInt (score a)); ("result", VStr (result a));
     ("timestamp", VStr (Datetime.isoformat (timestamp a)))].
End Assessment.

Module ContactRequestCreate.
Record t := mk {
  name : string; mobile : string; email : option string; message : string
}.
End ContactRequestCreate.

Module ContactRequest.
Record t := mk {
  id : string;
  name : string; mobile : string; email : option string; message : string;
  timestamp : datetime
}.
Definition model_dump (c : t) : doc :=
  list_to_map
    [("id", VStr (id c)); ("name", VStr (name c)); ("mobile", VStr (mobile c));
     ("email", match email c with Some e => VStr e | None => VNone end);
     ("message", VStr (message c));
     ("timestamp", VDatetime (timestamp c))].
Definition document (c : t) : doc :=
  list_to_map
    [("id", VStr (id c)); ("name", VStr (name c)); ("mobile", VStr (mobile c));
     ("email", match email c with Some e => VStr e | None => VNone end);
     ("message", VStr (message c));
     ("timestamp", VStr (Datetime.isoformat (timestamp c)))].
End ContactRequest.

Module AdminLogin.
Record t := mk { username : string; password : string }.
End AdminLogin.

Module AdminLoginResponse.
Record t := mk { success : bool; message : string }.
End AdminLoginResponse.

(** ** Outcomes of a request *)

(** What a handler can raise, and the status FastAPI answers with. *)
Inductive exception :=
| RequestValidationError
| HTTPException (status_code : Z) (detail : string)
| ValueError
| KeyError (key : string)
| OverflowError
| IllegalCharacterError
| TypeError.

Definition status_of (e : exception) : Z :=
  match e with
  | RequestValidationError => 422
  | HTTPException status_code _ => status_code
  | ValueError | KeyError _ | OverflowError | IllegalCharacterError | TypeError =>
      500
  end.

Inductive outcome (A : Type) :=
| Ok (a : A)
| Raise (e : exception).
Arguments Ok {A} a.
Arguments Raise {A} e.

Definition status {A} (r : outcome A) : Z :=
  match r with Ok _ => 200 | Raise e => status_of e end.

#[global] Instance outcome_ret : MRet outcome := fun A a => Ok a.
#[global] Instance outcome_bind : MBind outcome := fun A B f m =>
  match m with Ok a => f a | Raise e => Raise e end.

(** A [for] loop whose body may raise. *)
Fixpoint for_each {A B} (f : A -> outcome B) (l : list A) : outcome (list B) :=
  match l with
  | [] => Ok []
  | x :: l' => y ← f x; ys ← for_each f l'; Ok (y :: ys)
  end.

(** ** Scoring (server.py, lines 86-97) *)

(** Python's [sum] over unbounded integers. *)
Definition sum (l : list Z) : Z := fold_left Z.add l 0.

Definition calculate_score_and_result (answers : list Answer.t) : Z * string :=
  let total_score := sum (map Answer.value answers) in
  let result :=
    if total_score <=? 28 then "Ama not present"
    else if total_score <=? 42 then "Ama slightly present"
    else "Ama Present" in
  (total_score, result).

(** ** The MongoDB collections *)

Module Mongo.

(** The two collections of the database, in insertion order, and a count of
    the write operations performed on it. A stored document is kept as the
    handlers see it: every read projects [_id] away. *)
Record database := mk {
  assessments : list doc;
  contact_requests : list doc;
  writes : nat
}.

Definition empty : database := mk [] [] 0.

Inductive collection := Assessments | ContactRequests.

Definition find (c : collection) (db : database) : list doc :=
  match c with
  | Assessments => assessments db
  | ContactRequests => contact_requests db
  end.

(** A BSON integer has at most 64 bits. *)
Definition int64 (z : Z) : bool := (- 2 ^ 63 <=? z) && (z <? 2 ^ 63).

(** Whether the driver can encode a value as BSON: every integer in it,
    at any depth, must fit 64 bits. Strings, floats, booleans, null and
    datetimes always encode. *)
Fixpoint encodable (v : pyval) : bool :=
  match v with
  | VInt z => int64 z
  | VList l => forallb encodable l
  | VDict d => map_fold (fun _ x acc => encodable x && acc) true d
  | _ => true
  end.

(** [insert_one]: the driver encodes the document before it sends it and
    raises [OverflowError] on an integer beyond 64 bits, writing nothing;
    otherwise the document is added at the end of the collection. The
    server is one that answers and takes the document: an unreachable
    server, or a document over the server's size limit of 16 MiB, makes
    the driver raise as well and is left out. *)
Definition insert_one (c : collection) (d : doc) (db : database)
    : outcome database :=
  if encodable (VDict d) then
    Ok match c with
       | Assessments =>
           mk (assessments db ++ [d]) (contact_requests db) (S (writes db))
       | ContactRequests =>
           mk (assessments db) (contact_requests db ++ [d]) (S (writes db))
       end
  else Raise OverflowError.

(** *** The BSON comparison order used by [sort]

    Values of different types are ordered by type (null and missing fields
    first, then numbers, strings, objects, arrays, booleans, dates); numbers
    compare by value, strings byte-wise, dates chronologically. Two objects
    or two arrays are left as ties. *)
Definition bson_rank (v : option pyval) : Z :=
  match v with
  | None | Some VNone => 0
  | Some (VInt _) | Some (VFloat _ _) => 1
  | Some (VStr _) => 2
  | Some (VDict _) => 3
  | Some (VList _) => 4
  | Some (VBool _) => 5
  | Some (VDatetime _) => 6
  end.

Definition number_compare (m1 e1 m2 e2 : Z) : comparison :=
  let e := Z.min e1 e2 in
  (m1 * 10 ^ (e1 - e)) ?= (m2 * 10 ^ (e2 - e)).

Definition number_of (v : pyval) : Z * Z :=
  match v with
  | VInt z => (z, 0)
  | VFloat m e => (m, e)
  | _ => (0, 0)
  end.

Definition bson_compare (a b : option pyval) : comparison :=
  match bson_rank a ?= bson_rank b with
  | Eq =>
      match a, b with
      | Some (VStr s1), Some (VStr s2) => String.compare s1 s2
      | Some (VBool b1), Some (VBool b2) => Z.b2z b1 ?= Z.b2z b2
      | Some (VDatetime d1), Some (VDatetime d2) => Datetime.compare d1 d2
      | Some ((VInt _ | VFloat _ _) as x), Some ((VInt _ | VFloat _ _) as y) =>
          number_compare (number_of x).1 (number_of x).2 (number_of y).1 (number_of y).2
      | _, _ => Eq
      end
  | c => c
  end.

Definition bson_leb (a b : option pyval) : bool :=
  match bson_compare a b with Gt => false | _ => true end.

(** The order [sort(key, -1)] leaves between neighbours. *)
Definition desc (key : string) (x y : doc) : Prop :=
  bson_leb (y !! key) (x !! key) = true.

(** [sort(key, -1)]: descending on the field [key]; documents with equal
    keys keep their insertion order. *)
Fixpoint insert_desc (key : string) (x : doc) (l : list doc) : list doc :=
  match l with
  | [] => [x]
  | y :: l' =>
      if bson_leb (y !! key) (x !! key) then x :: y :: l'
      else y :: insert_desc key x l'
  end.

Definition sort_desc (key : string) (l : list doc) : list doc :=
  foldr (insert_desc key) [] l.

(** [to_list(length)] *)
Definition to_list (length : Z) (cursor : list doc) : list doc :=
  take (Z.to_nat length) cursor.

End Mongo.

(** ** Routes (server.py, lines 100-234) *)

(** Admin credentials (server.py, lines 32-33) *)
Definition ADMIN_USERNAME : string := "admin_kamch".
Definition ADMIN_PASSWORD : string := "admin_kamch123".

(** [doc['timestamp'] = doc['timestamp'].isoformat()] *)
Definition serialize_timestamp (d : doc) : doc :=
  alter (fun v => match v with
                  | VDatetime t => VStr (Datetime.isoformat t)
                  | _ => v
                  end) "timestamp" d.

(** [doc['answers'] = [answer.model_dump() if hasattr(answer, 'model_dump')
    else answer for answer in doc['answers']]]: after [model_dump()] the
    answers are dictionaries already, none has a [model_dump] attribute. *)
Definition answers_to_dicts (d : doc) : doc :=
  alter (fun v => match v with
                  | VList l => VList (map (fun answer => answer) l)
                  | _ => v
                  end) "answers" d.

(** [create_assessment]; [uuid4] and [now] are the values that
    [uuid.uuid4()] and [datetime.now(timezone.utc)] return when the
    [Assessment] is constructed. The handler returns the record, or raises
    what [insert_one] raises, together with the database it leaves. *)
Definition create_assessment (uuid4 : string) (now : datetime)
    (submission : AssessmentSubmission.t) (db : Mongo.database)
    : outcome Assessment.t * Mongo.database :=
  let '(score, result) :=
    calculate_score_and_result (AssessmentSubmission.answers submission) in
  let assessment :=
    Assessment.mk uuid4
      (AssessmentSubmission.name submission)
      (AssessmentSubmission.age submission)
      (AssessmentSubmission.gender submission)
      (AssessmentSubmission.date submission)
      (AssessmentSubmission.mobile submission)
      (AssessmentSubmission.answers submission)
      score result now in
  let doc := Assessment.model_dump assessment in
  let doc := serialize_timestamp doc in
  let doc := answers_to_dicts doc in
  match Mongo.insert_one Mongo.Assessments doc db with
  | Ok db => (Ok assessment, db)
  | Raise e => (Raise e, db)
  end.

Definition create_contact_request (uuid4 : string) (now : datetime)
    (request : ContactRequestCreate.t) (db : Mongo.database)
    : outcome ContactRequest.t * Mongo.database :=
  let contact_req :=
    ContactRequest.mk uuid4
      (ContactRequestCreate.name request)
      (ContactRequestCreate.mobile request)
      (ContactRequestCreate.email request)
      (ContactRequestCreate.message request)
      now in
  let doc := ContactRequest.model_dump contact_req in
  let doc := serialize_timestamp doc in
  match Mongo.insert_one Mongo.ContactRequests doc db with
  | Ok db => (Ok contact_req, db)
  | Raise e => (Raise e, db)
  end.

Definition admin_login (login : AdminLogin.t) : outcome AdminLoginResponse.t :=
  if String.eqb (AdminLogin.username login) ADMIN_USERNAME
     && String.eqb (AdminLogin.password login) ADMIN_PASSWORD
  then Ok (AdminLoginResponse.mk true "Login successful")
  else Raise (HTTPException 401 "Invalid credentials").

(** The query shared by the two admin routes:
    [db.assessments.find({}, {"_id": 0}).sort("timestamp", -1).to_list(10000)] *)
Definition fetch_assessments (db : Mongo.database) : list doc :=
  Mongo.to_list 10000
    (Mongo.sort_desc "timestamp" (Mongo.find Mongo.Assessments db)).

(** The loop body of [get_all_assessments]: [assessment['timestamp']] raises
    [KeyError] on a document without the field, [fromisoformat] raises
    [ValueError] on a string it cannot parse. *)
Definition restore_timestamp (assessment : doc) : outcome doc :=
  match assessment !! "timestamp" with
  | None => Raise (KeyError "timestamp")
  | Some (VStr s) =>
      match Datetime.fromisoformat s with
      | Some t => Ok (<["timestamp" := VDatetime t]> assessment)
      | None => Raise ValueError
      end
  | Some _ => Ok assessment
  end.

(** The list the handler returns; its serialization through
    [response_model] is FastAPI's. *)
Definition get_all_assessments (db : Mongo.database) : outcome (list doc) :=
  let assessments := fetch_assessments db in
  for_each restore_timestamp assessments.

(** *** The worksheet calls of openpyxl

    What [ws.append] and [wb.save] do with the values the handler hands
    them; a sheet is the list of its rows, a row the list of its cell
    values. Python text is kept as its UTF-8 bytes. *)
Module Openpyxl.

(** A character starts at every byte that is not a continuation byte. *)
Definition starts_character (c : ascii) : bool :=
  let n := Z.of_N (N_of_ascii c) in negb ((128 <=? n) && (n <? 192)).

(** [value[:n]], the first [n] characters of a text. *)
Fixpoint slice (n : Z) (value : string) : string :=
  match value with
  | EmptyString => EmptyString
  | String c rest =>
      if starts_character c
      then if n <=? 0 then EmptyString else String c (slice (n - 1) rest)
      else String c (slice n rest)
  end.

(** [ILLEGAL_CHARACTERS_RE]: the control characters other than tab, line
    feed and carriage return. *)
Definition illegal_character (c : ascii) : bool :=
  let n := Z.of_N (N_of_ascii c) in
  (n <=? 8) || ((11 <=? n) && (n <=? 12)) || ((14 <=? n) && (n <=? 31)).

(** [Cell.check_string]: the text is cut to 32767 characters, and what is
    left must hold no illegal character. *)
Definition check_string (value : string) : outcome string :=
  let value := slice 32767 value in
  if existsb illegal_character (list_ascii_of_string value)
  then Raise IllegalCharacterError
  else Ok value.

(** Setting the value of a cell: numbers, booleans, dates and [None] are
    kept, a string is checked, anything else cannot be converted. *)
Definition bind_value (value : pyval) : outcome pyval :=
  match value with
  | VStr s => s ← check_string s; Ok (VStr s)
  | VList _ | VDict _ => Raise ValueError
  | _ => Ok value
  end.

(** [ws.append(row)]: one cell per value; the row as the sheet keeps it. *)
Definition append (row : list pyval) : outcome (list pyval) :=
  for_each bind_value row.

(** A [datetime] cell that carries a [tzinfo] cannot be written. *)
Definition timezone_free (value : pyval) : bool :=
  match value with
  | VDatetime t => match tzinfo t with None => true | Some _ => false end
  | _ => true
  end.

(** [wb.save]: writing the cells raises [TypeError] on such a cell. *)
Definition save (sheet : list (list pyval)) : outcome (list (list pyval)) :=
  if forallb (forallb timezone_free) sheet then Ok sheet else Raise TypeError.

(** A sheet filled row by row and then saved. *)
Definition workbook (rows : list (list pyval)) : outcome (list (list pyval)) :=
  sheet ← for_each append rows; save sheet.

(** The value a cell keeps for a value it takes. *)
Definition stored (value : pyval) : pyval :=
  match value with
  | VStr s => VStr (slice 32767 s)
  | _ => value
  end.

(** The values that make neither [ws.append] nor [wb.save] raise. *)
Definition writable (value : pyval) : bool :=
  match value with
  | VStr s =>
      negb (existsb illegal_character (list_ascii_of_string (slice 32767 s)))
  | VList _ | VDict _ => false
  | _ => timezone_free value
  end.

End Openpyxl.

(** The worksheet of [export_assessments]: the rows as the sheet keeps
    them once the workbook is saved. The styling of the header and the
    serialization to xlsx leave the cells as they are and are not
    modelled. *)
Definition headers : list pyval :=
  [VStr "Date Submitted"; VStr "Name"; VStr "Age"; VStr "Gender"; VStr "Date";
   VStr "Mobile"; VStr "Score"; VStr "Result"].

Definition export_row (assessment : doc) : outcome (list pyval) :=
  let timestamp := get assessment "timestamp" (VStr "") in
  timestamp ← match timestamp with
              | VStr s =>
                  match Datetime.fromisoformat s with
                  | Some t => Ok (VStr (Datetime.strftime t))
                  | None => Raise ValueError
                  end
              | VDatetime t => Ok (VStr (Datetime.strftime t))
              | _ => Ok timestamp
              end;
  Openpyxl.append
    [timestamp;
     get assessment "name" (VStr "");
     get assessment "age" (VStr "");
     get assessment "gender" (VStr "");
     get assessment "date" (VStr "");
     get assessment "mobile" (VStr "");
     get assessment "score" (VStr "");
     get assessment "result" (VStr "")].

Definition export_assessments (db : Mongo.database) : outcome (list (list pyval)) :=
  let assessments := fetch_assessments db in
  header ← Openpyxl.append headers;
  rows ← for_each export_row assessments;
  Openpyxl.save (header :: rows).

(** The instant a document's [timestamp] field stands for, when it is an
    ISO string or a [datetime]. *)
Definition timestamp_of (d : doc) : option datetime :=
  match d !! "timestamp" with
  | Some (VStr s) => Datetime.fromisoformat s
  | Some (VDatetime t) => Some t
  | _ => None
  end.

(** Newest first: [b] is not later than [a]. *)
Definition newest_first (a b : Assessment.t) : Prop :=
  Datetime.leb (Assessment.timestamp b) (Assessment.timestamp a) = true.

(** A timestamp as [datetime.now(timezone.utc)] returns it. *)
Definition utc_instant (t : datetime) : Prop :=
  Datetime.valid t = true /\ tzinfo t = Datetime.utc.

(** The cell that shows the field [key] of [d]: its value (of a string
    the first 32767 characters, which is all a cell keeps), or the empty
    string when the document has no such field. *)
Definition renders (d : doc) (key : string) (cell : pyval) : Prop :=
  match d !! key with
  | Some (VStr s) => cell = VStr (Openpyxl.slice 32767 s)
  | Some v => cell = v
  | None => cell = VStr ""
  end.

(** A row of the export for the document [d]: the formatted timestamp,
    of the shape [YYYY-MM-DD HH:MM:SS] from the year 1000 on, then the
    seven fields in the order of the headers. *)
Definition exported_row (d : doc) (row : list pyval) : Prop :=
  exists t c1 c2 c3 c4 c5 c6 c7,
    timestamp_of d = Some t
    /\ row = [VStr (Datetime.strftime t); c1; c2; c3; c4; c5; c6; c7]
    /\ (1000 <= year t ->
        Datetime.is_timestamp_pattern (Datetime.strftime t) = true)
    /\ renders d "name" c1 /\ renders d "age" c2 /\ renders d "gender" c3
    /\ renders d "date" c4 /\ renders d "mobile" c5
    /\ renders d "score" c6 /\ renders d "result" c7.

(** The values of the seven fields that follow the timestamp in a row. *)
Definition field_values (d : doc) : list pyval :=
  map (fun key => get d key (VStr ""))
    ["name"; "age"; "gender"; "date"; "mobile"; "score"; "result"].

(** A document the export can show: its timestamp is an ISO string or a
    [datetime], and the sheet takes the values of its seven fields. *)
Definition exportable (d : doc) : Prop :=
  is_Some (timestamp_of d)
  /\ Forall (fun v => Openpyxl.writable v = true) (field_values d).

(** A document with a value the sheet refuses: a timestamp that is a list
    or an object, or a field that holds a string with a control character
    among its first 32767 characters, a list, an object, or a [datetime]
    with a [tzinfo]. *)
Definition refused_cell (d : doc) : Prop :=
  (exists v, d !! "timestamp" = Some v
             /\ match v with VList _ | VDict _ => True | _ => False end)
  \/ Exists (fun v => Openpyxl.writable v = false) (field_values d).

(** The integers of a submission that go into the stored document all fit
    64 bits: the question ids, the values and the total. *)
Definition fits_int64 (answers : list Answer.t) : bool :=
  forallb (fun a => Mongo.int64 (Answer.question_id a)
                    && Mongo.int64 (Answer.value a)) answers
  && Mongo.int64 (calculate_score_and_result answers).1.

(** The databases the service can bring about, its clock giving UTC
    instants. *)
Inductive reachable : Mongo.database -> Prop :=
| reachable_empty : reachable Mongo.empty
| reachable_assessment uuid4 now submission db :
    utc_instant now -> reachable db ->
    reachable (create_assessment uuid4 now submission db).2
| reachable_contact uuid4 now request db :
    utc_instant now -> reachable db ->
    reachable (create_contact_request uuid4 now request db).2.

(** ** Request validation

    FastAPI validates the decoded JSON body against the model of the
    handler's parameter before the handler runs, and answers 422 without
    calling it when the validation fails. The shape of each model is read
    off its declaration; how pydantic coerces a value to [str] and to [int]
    is left to the two validators of this section. *)
Section Validation.

Variable validate_str : pyval -> option string.
Variable validate_int : pyval -> option Z.

(** A required field *)
Definition required {A} (validate : pyval -> option A) (d : doc) (key : string)
    : option A :=
  v ← d !! key; validate v.

(** A field declared [Optional[str] = None] *)
Definition optional_str (d : doc) (key : string) : option (option string) :=
  match d !! key with
  | None | Some VNone => Some None
  | Some v => s ← validate_str v; Some (Some s)
  end.

Definition validate_Answer (v : pyval) : option Answer.t :=
  match v with
  | VDict d =>
      question_id ← required validate_int d "question_id";
      value ← required validate_int d "value";
      Some (Answer.mk question_id value)
  | _ => None
  end.

Definition validate_answers (v : pyval) : option (list Answer.t) :=
  match v with
  | VList l => mapM validate_Answer l
  | _ => None
  end.

Definition validate_AssessmentSubmission (body : pyval)
    : option AssessmentSubmission.t :=
  match body with
  | VDict d =>
      name ← required validate_str d "name";
      age ← required validate_str d "age";
      gender ← required validate_str d "gender";
      date ← required validate_str d "date";
      mobile ← required validate_str d "mobile";
      answers ← required validate_answers d "answers";
      Some (AssessmentSubmission.mk name age gender date mobile answers)
  | _ => None
  end.

Definition validate_ContactRequestCreate (body : pyval)
    : option ContactRequestCreate.t :=
  match body with
  | VDict d =>
      name ← required validate_str d "name";
      mobile ← required validate_str d "mobile";
      email ← optional_str d "email";
      message ← required validate_str d "message";
      Some (ContactRequestCreate.mk name mobile email message)
  | _ => None
  end.

(** *** Payloads with a required field missing or mistyped *)

Inductive bad_field {A} (validate : pyval -> option A) (d : doc) (key : string)
    : Prop :=
| field_missing : d !! key = None -> bad_field validate d key
| field_mistyped v : d !! key = Some v -> validate v = None -> bad_field validate d key.

Inductive bad_Answer : pyval -> Prop :=
| answer_not_object v : (forall d, v <> VDict d) -> bad_Answer v
| answer_bad_field d key :
    key ∈ ["question_id"; "value"] -> bad_field validate_int d key ->
    bad_Answer (VDict d).

Inductive bad_answers : pyval -> Prop :=
| answers_not_list v : (forall l, v <> VList l) -> bad_answers v
| answers_bad_item l x : x ∈ l -> bad_Answer x -> bad_answers (VList l).

Inductive bad_AssessmentSubmission : pyval -> Prop :=
| submission_not_object body :
    (forall d, body <> VDict d) -> bad_AssessmentSubmission body
| submission_bad_str d key :
    key ∈ ["name"; "age"; "gender"; "date"; "mobile"] ->
    bad_field validate_str d key -> bad_AssessmentSubmission (VDict d)
| submission_answers_missing d :
    d !! "answers" = None -> bad_AssessmentSubmission (VDict d)
| submission_bad_answers d v :
    d !! "answers" = Some v -> bad_answers v -> bad_AssessmentSubmission (VDict d).


(** [POST /api/assessments] *)
Definition post_assessments (uuid4 : string) (now : datetime) (body : pyval)
    (db : Mongo.database) : outcome Assessment.t * Mongo.database :=
  match validate_AssessmentSubmission body with
  | None => (Raise RequestValidationError, db)
  | Some submission => create_assessment uuid4 now submission db
  end.

(** [POST /api/contact-requests] *)
Definition post_contact_requests (uuid4 : string) (now : datetime) (body : pyval)
    (db : Mongo.database) : outcome ContactRequest.t * Mongo.database :=
  match validate_ContactRequestCreate body with
  | None => (Raise RequestValidationError, db)
  | Some request => create_contact_request uuid4 now request db
  end.

End Validation.

(** The validators of a strict reading of the models: a [str] field takes
    a string, an [int] field an integer. *)
Definition strict_str (v : pyval) : option string :=
  match v with VStr s => Some s | _ => None end.
Definition strict_int (v : pyval) : option Z :=
  match v with VInt z => Some z | _ => None end.

(** ** The rest of the export: column widths (server.py, lines 207-218) *)

Section ColumnWidths.

(** [len(str(cell.value))], Python's rendering of a cell value as text. *)
Variable text_length : pyval -> Z.

(** The inner loop: the longest text of a column, starting from 0. *)
Definition max_length (column : list pyval) : Z :=
  fold_left
    (fun max_length cell =>
       if text_length cell >? max_length then text_length cell else max_length)
    column 0.

Definition adjusted_width (column : list pyval) : Z :=
  Z.min (max_length column + 2) 50.

(** [ws.columns]: the cells of the sheet column by column, a row that is
    too short giving an empty cell. *)
Definition columns (table : list (list pyval)) : list (list pyval) :=
  map (fun i => map (fun row => nth i row VNone) table)
    (seq 0 (fold_right Nat.max 0%nat (map length table))).

Definition column_widths (table : list (list pyval)) : list Z :=
  map adjusted_width (columns table).

(** The widths [export_assessments] sets on the sheet it has filled. *)
Definition export_column_widths (db : Mongo.database) : outcome (list Z) :=
  table ← export_assessments db; Ok (column_widths table).

End ColumnWidths.

(** The listed document [d] as the row handed to [ws.append]. *)
Definition row_of_listed (d : doc) : list pyval :=
  [match d !! "timestamp" with
   | Some (VDatetime t) => VStr (Datetime.strftime t)
   | Some v => v
   | None => VStr ""
   end;
   get d "name" (VStr ""); get d "age" (VStr ""); get d "gender" (VStr "");
   get d "date" (VStr ""); get d "mobile" (VStr ""); get d "score" (VStr "");
   get d "result" (VStr "")].

(** A document whose [timestamp] neither handler can read: the field is
    missing, or it is a string that [fromisoformat] rejects. *)
Definition unreadable_timestamp (d : doc) : Prop :=
  d !! "timestamp" = None
  \/ exists s, d !! "timestamp" = Some (VStr s) /\ Datetime.fromisoformat s = None.

(** A run of submissions from the empty database: the generated id, the
    clock and the submission of each, with the record returned, if one
    is. *)
Definition submit (db : Mongo.database)
    (event : string * datetime * AssessmentSubmission.t) : Mongo.database :=
  (create_assessment event.1.1 event.1.2 event.2 db).2.

Definition submitted (event : string * datetime * AssessmentSubmission.t)
    : option Assessment.t :=
  match (create_assessment event.1.1 event.1.2 event.2 Mongo.empty).1 with
  | Ok assessment => Some assessment
  | Raise _ => None
  end.

(** The place of a result label among the three, lowest first. *)
Definition severity (result : string) : Z :=
  if String.eqb result "Ama not present" then 0
  else if String.eqb result "Ama slightly present" then 1
  else 2.

(** ** CORS origins (server.py, line 242) *)

(** [str.split(sep)] for a separator of one character. *)
Fixpoint split (sep : ascii) (s : string) : list string :=
  match s with
  | EmptyString => [EmptyString]
  | String c rest =>
      if Ascii.eqb c sep then EmptyString :: split sep rest
      else match split sep rest with
           | piece :: pieces => String c piece :: pieces
           | [] => [String c EmptyString]
           end
  end.

(** [sep.join(pieces)] *)
Fixpoint join (sep : ascii) (pieces : list string) : string :=
  match pieces with
  | [] => EmptyString
  | [piece] => piece
  | piece :: rest => String.append piece (String sep (join sep rest))
  end.

(** [os.environ.get('CORS_ORIGINS', '*').split(',')] *)
Definition allow_origins (CORS_ORIGINS : option string) : list string :=
  split "," (match CORS_ORIGINS with Some v => v | None => "*" end).

(** ** The test driver (backend_test.py, lines 6-27 and 296-311) *)

Module KamchAPITester.

(** An entry of [test_results] *)
Record test_result := mk_test_result {
  test : string; success : bool; details : string
}.

Record t := mk {
  base_url : string;
  api_url : string;
  tests_run : Z;
  tests_passed : Z;
  test_results : list test_result
}.

(** [__init__] *)
Definition init (base_url : string) : t :=
  mk base_url (String.append base_url "/api") 0 0 [].

(** [log_test]; what it prints is left out. *)
Definition log_test (self : t) (name : string) (success : bool) (details : string)
    : t :=
  let self :=
    mk (base_url self) (api_url self) (tests_run self + 1) (tests_passed self)
       (test_results self) in
  let self :=
    if success
    then mk (base_url self) (api_url self) (tests_run self)
            (tests_passed self + 1) (test_results self)
    else self in
  mk (base_url self) (api_url self) (tests_run self) (tests_passed self)
     (test_results self ++ [mk_test_result name success details]).

(** The summary of [run_all_tests]: the number printed as failed, the list
    of failed tests, and the value returned. *)
Definition failed (self : t) : Z := tests_run self - tests_passed self.

Definition failed_tests (self : t) : list test_result :=
  List.filter (fun test => negb (success test)) (test_results self).

Definition all_passed (self : t) : bool := tests_passed self =? tests_run self.

End KamchAPITester.

(** ** Sample data

    The submission of the test suite (backend_test.py, lines 74-96) with a
    client-supplied [id] added, a contact request, two instants, and the
    payloads and databases on which the claims are tried. *)

Definition sample_now : datetime := mk_datetime 2025 1 15 9 30 5 123456 Datetime.utc.
Definition sample_later : datetime := mk_datetime 2025 1 15 9 30 6 0 Datetime.utc.

Definition sample_answers : list Answer.t :=
  map (fun '(q, v) => Answer.mk q v)
    [(1, 3); (2, 2); (3, 1); (4, 4); (5, 2); (6, 3); (7, 1); (8, 2); (9, 3);
     (10, 1); (11, 2); (12, 3); (13, 2); (14, 1)].

Definition sample_submission : AssessmentSubmission.t :=
  AssessmentSubmission.mk "Test User" "18 yrs above" "Male" "2025-01-15"
    "9876543210" sample_answers.


(** The incomplete submission of the test suite (backend_test.py, line 250). *)
Definition incomplete_body : pyval :=
  VDict (list_to_map [("name", VStr "Test User")]).

Definition empty_answers_doc : doc :=
  list_to_map
    [("name", VStr "Test User"); ("age", VStr "18 yrs above");
     ("gender", VStr "Male"); ("date", VStr "2025-01-15");
     ("mobile", VStr "9876543210"); ("answers", VList [])].

(** A submission of three answers, two of them to question 7. *)
Definition repeated_answers_doc : doc :=
  list_to_map
    [("name", VStr "Test User"); ("age", VStr "18 yrs above");
     ("gender", VStr "Male"); ("date", VStr "2025-01-15");
     ("mobile", VStr "9876543210");
     ("answers", VList (map Answer.model_dump
                          [Answer.mk 7 3; Answer.mk 2 5; Answer.mk 7 1]))].


Definition sample_contact : ContactRequestCreate.t :=
  ContactRequestCreate.mk "Test Contact" "9876543210" (Some "test@example.com")
    "This is a test contact request".


(** A database of 10001 assessments and one whose only assessment has no
    field at all. *)
Definition crowded_db : Mongo.database :=
  Mongo.mk
    (replicate (Z.to_nat 10001)
       (Assessment.document
          (Assessment.mk "id-1" "Test User" "18 yrs above" "Male" "2025-01-15"
             "9876543210" sample_answers 30 "Ama slightly present" sample_now)))
    [] (Z.to_nat 10001).

Definition bare_db : Mongo.database := Mongo.mk [∅] [] 1.

(** Two submissions, the clock moving on in between. *)
Definition sample_events : list (string * datetime * AssessmentSubmission.t) :=
  [("id-1", sample_now, sample_submission);
   ("id-2", sample_later, sample_submission)].

(** The database after two submissions, and the records they returned. *)
Definition sample_db : Mongo.database :=
  (create_assessment "id-2" sample_later sample_submission
     (create_assessment "id-1" sample_now sample_submission Mongo.empty).2).2.

Definition sample_records : list Assessment.t := omap submitted sample_events.


(** The database after a submission whose name starts with the control
    character U+0001, and one whose only assessment is stamped in the
    year 999. *)
Definition control_db : Mongo.database :=
  (create_assessment "id-5" sample_now
     (AssessmentSubmission.mk (String (ascii_of_nat 1) "abc") "18 yrs above"
        "Male" "2025-01-15" "9876543210" sample_answers)
     Mongo.empty).2.

Definition early_db : Mongo.database :=
  Mongo.mk
    [Assessment.document
       (Assessment.mk "id-6" "Test User" "18 yrs above" "Male" "0999-01-02"
          "9876543210" sample_answers 30 "Ama slightly present"
          (mk_datetime 999 1 2 3 4 5 0 None))]
    [] 1.

(** * Properties *)

(** ** Facts about the [datetime] methods *)

Module DatetimeFacts.
Import Datetime.

#[local] Arguments digit : simpl never.
#[local] Arguments pad2 : simpl never.
#[local] Arguments pad4 : simpl never.
#[local] Arguments pad6 : simpl never.
#[local] Arguments parse2 : simpl never.
#[local] Arguments parse4 : simpl never.
#[local] Arguments parse6 : simpl never.
#[local] Arguments format_offset : simpl never.
#[local] Arguments tail : simpl never.
#[local] Arguments parse_offset : simpl never.
#[local] Arguments parse_fraction : simpl never.
#[local] Arguments days_in_month : simpl never.

Ltac divmod := Z.to_euclidean_division_equations; lia.

Lemma digit_code (n : Z) :
  N_of_ascii (digit n) = Z.to_N (48 + n mod 10).
Proof.
  unfold digit. apply N_ascii_embedding.
  assert (0 <= n mod 10 < 10) by (apply Z.mod_pos_bound; lia). lia.
Qed.

Lemma digit_val_digit (n : Z) : digit_val (digit n) = Some (n mod 10).
Proof.
  unfold digit_val. rewrite digit_code.
  assert (0 <= n mod 10 < 10) by (apply Z.mod_pos_bound; lia).
  rewrite Z2N.id by lia.
  replace (48 <=? 48 + n mod 10) with true by (symmetry; apply Z.leb_le; lia).
  replace (48 + n mod 10 <=? 57) with true by (symmetry; apply Z.leb_le; lia).
  simpl. f_equal. lia.
Qed.

Lemma parse2_pad2 (n : Z) (rest : string) :
  parse2 (pad2 n rest) = Some (n mod 100, rest).
Proof.
  unfold parse2, pad2. rewrite !digit_val_digit. simpl.
  do 2 f_equal. divmod.
Qed.

Lemma parse4_pad4 (n : Z) (rest : string) :
  parse4 (pad4 n rest) = Some (n mod 10000, rest).
Proof.
  unfold parse4, pad4. rewrite parse2_pad2. simpl. rewrite parse2_pad2. simpl.
  do 2 f_equal. divmod.
Qed.

Lemma parse6_pad6 (n : Z) (rest : string) :
  parse6 (pad6 n rest) = Some (n mod 1000000, rest).
Proof.
  unfold parse6, pad6. rewrite parse2_pad2. simpl. rewrite parse4_pad4. simpl.
  do 2 f_equal. divmod.
Qed.

Lemma parse_offset_format (tz : option Z) :
  match tz with Some off => -1440 < off < 1440 | None => True end ->
  parse_offset (format_offset tz) = Some tz.
Proof.
  destruct tz as [off|]; [|reflexivity].
  intros Hoff. unfold format_offset, parse_offset.
  assert (Hsign : (let c := if off <? 0 then "-"%char else "+"%char in
                   if Ascii.eqb c "+" then Some 1
                   else if Ascii.eqb c "-" then Some (-1) else None)
                  = Some (if off <? 0 then -1 else 1))
    by (destruct (off <? 0); reflexivity).
  cbv zeta in Hsign. rewrite Hsign. simpl.
  rewrite parse2_pad2. simpl. rewrite parse2_pad2. simpl.
  replace (((Z.abs off / 60) mod 100) <? 24) with true
    by (symmetry; apply Z.ltb_lt; divmod).
  replace (((Z.abs off mod 60) mod 100) <? 60) with true
    by (symmetry; apply Z.ltb_lt; divmod).
  simpl. do 2 f_equal.
  destruct (Z.ltb_spec off 0); divmod.
Qed.

Lemma parse_fraction_offset (tz : option Z) :
  parse_fraction (format_offset tz) = Some (0, format_offset tz).
Proof.
  destruct tz as [off|]; [|reflexivity].
  unfold format_offset. destruct (off <? 0); reflexivity.
Qed.

Lemma valid_bounds (d : datetime) :
  valid d = true ->
  1 <= year d <= 9999 /\ 1 <= month d <= 12 /\
  1 <= day d <= days_in_month (year d) (month d) /\
  0 <= hour d < 24 /\ 0 <= minute d < 60 /\ 0 <= second d < 60 /\
  0 <= microsecond d < 1000000 /\
  match tzinfo d with Some off => -1440 < off < 1440 | None => True end.
Proof.
  unfold valid. rewrite !andb_true_iff.
  rewrite !Z.leb_le, !Z.ltb_lt.
  intros H. repeat split; try tauto.
  destruct (tzinfo d); [|exact I].
  destruct H as [_ H]. rewrite andb_true_iff, !Z.ltb_lt in H. lia.
Qed.

Lemma days_in_month_le (y m : Z) : 28 <= days_in_month y m <= 31.
Proof.
  unfold days_in_month.
  destruct (m =? 2); [destruct (is_leap y); lia|].
  destruct (_ || _); lia.
Qed.

(** Parsing what [isoformat] printed gives the datetime back. *)
Lemma fromisoformat_isoformat (d : datetime) :
  valid d = true -> fromisoformat (isoformat d) = Some d.
Proof.
  intros Hv. apply valid_bounds in Hv.
  destruct Hv as (Hy & Hm & Hd & Hh & Hmi & Hs & Hus & Htz).
  pose proof (days_in_month_le (year d) (month d)) as Hdim.
  destruct d as [y m dd h mi s us tz]; simpl in *.
  unfold fromisoformat, isoformat; simpl.
  rewrite parse4_pad4; simpl. rewrite parse2_pad2; simpl.
  rewrite parse2_pad2; simpl.
  rewrite (Z.mod_small y), (Z.mod_small m), (Z.mod_small dd) by lia.
  replace (1 <=? y) with true by (symmetry; apply Z.leb_le; lia).
  replace (1 <=? m) with true by (symmetry; apply Z.leb_le; lia).
  replace (m <=? 12) with true by (symmetry; apply Z.leb_le; lia).
  replace (1 <=? dd) with true by (symmetry; apply Z.leb_le; lia).
  replace (dd <=? days_in_month y m) with true by (symmetry; apply Z.leb_le; lia).
  simpl. unfold parse_time.
  rewrite parse2_pad2; simpl. rewrite parse2_pad2; simpl.
  rewrite parse2_pad2; simpl.
  rewrite (Z.mod_small h), (Z.mod_small mi), (Z.mod_small s) by lia.
  assert (Hchk : (h <? 24) && (mi <? 60) && (s <? 60) = true).
  { rewrite !andb_true_iff, !Z.ltb_lt. lia. }
  unfold tail. destruct (Z.eqb_spec us 0) as [->|Hne].
  - rewrite parse_fraction_offset; simpl.
    rewrite parse_offset_format by exact Htz. simpl.
    rewrite Hchk. reflexivity.
  - unfold parse_fraction. rewrite parse6_pad6; simpl.
    rewrite parse_offset_format by exact Htz. simpl.
    rewrite Hchk, (Z.mod_small us) by lia. reflexivity.
Qed.

(** *** The byte order of ISO strings is the order of the instants *)

Lemma ascii_compare_digit (x y : Z) :
  Ascii.compare (digit x) (digit y) = (x mod 10 ?= y mod 10).
Proof.
  unfold Ascii.compare. rewrite !digit_code.
  assert (0 <= x mod 10 < 10) by (apply Z.mod_pos_bound; lia).
  assert (0 <= y mod 10 < 10) by (apply Z.mod_pos_bound; lia).
  rewrite Z2N.inj_compare by lia.
  apply Z.add_compare_mono_l.
Qed.

Lemma ascii_compare_refl (c : ascii) : Ascii.compare c c = Eq.
Proof. unfold Ascii.compare. apply N.compare_refl. Qed.

Lemma string_compare_refl (s : string) : String.compare s s = Eq.
Proof.
  induction s as [|c s IH]; simpl; [reflexivity|].
  rewrite ascii_compare_refl. exact IH.
Qed.

Lemma string_compare_cons (c : ascii) (s t : string) :
  String.compare (String c s) (String c t) = String.compare s t.
Proof. simpl. rewrite ascii_compare_refl. reflexivity. Qed.

Lemma string_compare_digit (x y : Z) (s t : string) :
  String.compare (String (digit x) s) (String (digit y) t)
  = lex (x mod 10 ?= y mod 10) (String.compare s t).
Proof.
  simpl. rewrite ascii_compare_digit. unfold lex.
  destruct (x mod 10 ?= y mod 10); reflexivity.
Qed.

Lemma lex_split (a b a1 b1 a0 b0 : Z) (k : comparison) :
  (a = b <-> a1 = b1 /\ a0 = b0) ->
  (a < b <-> a1 < b1 \/ (a1 = b1 /\ a0 < b0)) ->
  lex (a1 ?= b1) (lex (a0 ?= b0) k) = lex (a ?= b) k.
Proof.
  intros Heq Hlt.
  destruct (Z.compare_spec a1 b1), (Z.compare_spec a0 b0),
    (Z.compare_spec a b); simpl; try reflexivity; exfalso; lia.
Qed.

Lemma string_compare_pad2 (x y : Z) (s t : string) :
  String.compare (pad2 x s) (pad2 y t)
  = lex (x mod 100 ?= y mod 100) (String.compare s t).
Proof.
  unfold pad2. rewrite !string_compare_digit.
  apply lex_split; divmod.
Qed.

Lemma string_compare_pad4 (x y : Z) (s t : string) :
  String.compare (pad4 x s) (pad4 y t)
  = lex (x mod 10000 ?= y mod 10000) (String.compare s t).
Proof.
  unfold pad4. rewrite !string_compare_pad2.
  apply lex_split; divmod.
Qed.

Lemma string_compare_pad6 (x y : Z) (s t : string) :
  String.compare (pad6 x s) (pad6 y t)
  = lex (x mod 1000000 ?= y mod 1000000) (String.compare s t).
Proof.
  unfold pad6. rewrite string_compare_pad2, string_compare_pad4.
  apply lex_split; divmod.
Qed.

(** An offset suffix sorts before a fraction: [+] and [-] precede [.]. *)
Lemma string_compare_offset_fraction (tz : option Z) (s : string) :
  String.compare (format_offset tz) (String "." s) = Lt.
Proof.
  destruct tz as [off|]; [|reflexivity].
  unfold format_offset. destruct (off <? 0); reflexivity.
Qed.

Lemma string_compare_antisym_Lt (s t : string) :
  String.compare s t = Lt -> String.compare t s = Gt.
Proof. intros H. rewrite String.compare_antisym, H. reflexivity. Qed.

Lemma string_compare_tail (us1 us2 : Z) (tz : option Z) :
  0 <= us1 < 1000000 -> 0 <= us2 < 1000000 ->
  String.compare (tail us1 tz) (tail us2 tz) = (us1 ?= us2).
Proof.
  intros H1 H2. unfold tail.
  destruct (Z.eqb_spec us1 0) as [->|N1], (Z.eqb_spec us2 0) as [->|N2].
  - apply string_compare_refl.
  - rewrite string_compare_offset_fraction. symmetry. apply Z.compare_lt_iff. lia.
  - rewrite (string_compare_antisym_Lt _ _ (string_compare_offset_fraction tz _)).
    symmetry. apply Z.compare_gt_iff. lia.
  - rewrite string_compare_cons, string_compare_pad6, string_compare_refl.
    rewrite !Z.mod_small by lia.
    unfold lex. destruct (us1 ?= us2); reflexivity.
Qed.

Lemma compare_lex (a b : datetime) :
  compare a b =
  lex (year a ?= year b) (lex (month a ?= month b) (lex (day a ?= day b)
    (lex (hour a ?= hour b) (lex (minute a ?= minute b)
      (lex (second a ?= second b) (microsecond a ?= microsecond b)))))).
Proof.
  unfold compare, lex.
  repeat match goal with |- context [?x ?= ?y] => destruct (x ?= y) end;
    reflexivity.
Qed.

(** Between two valid datetimes of the same [tzinfo], the byte order of the
    ISO strings is the chronological order. *)
Lemma string_compare_isoformat (a b : datetime) :
  valid a = true -> valid b = true -> tzinfo a = tzinfo b ->
  String.compare (isoformat a) (isoformat b) = compare a b.
Proof.
  intros Ha Hb Htz. apply valid_bounds in Ha, Hb.
  pose proof (days_in_month_le (year a) (month a)).
  pose proof (days_in_month_le (year b) (month b)).
  rewrite compare_lex. unfold isoformat. rewrite Htz.
  repeat first [ rewrite string_compare_pad4 | rewrite string_compare_pad2
               | rewrite string_compare_cons ].
  rewrite string_compare_tail by lia.
  rewrite !Z.mod_small by lia. reflexivity.
Qed.

Lemma compare_antisym (a b : datetime) : compare a b = CompOpp (compare b a).
Proof.
  rewrite !compare_lex. unfold lex.
  rewrite (Z.compare_antisym (year a)), (Z.compare_antisym (month a)),
    (Z.compare_antisym (day a)), (Z.compare_antisym (hour a)),
    (Z.compare_antisym (minute a)), (Z.compare_antisym (second a)),
    (Z.compare_antisym (microsecond a)).
  repeat match goal with |- context [?x ?= ?y] => destruct (x ?= y); simpl end;
    reflexivity.
Qed.

Lemma lex_leb_trans (a b c : Z) (k1 k2 k3 : comparison) :
  (k1 <> Gt -> k2 <> Gt -> k3 <> Gt) ->
  lex (a ?= b) k1 <> Gt -> lex (b ?= c) k2 <> Gt -> lex (a ?= c) k3 <> Gt.
Proof.
  intros Hk. unfold lex.
  destruct (Z.compare_spec a b), (Z.compare_spec b c), (Z.compare_spec a c);
    try lia; try congruence; auto.
Qed.

Lemma leb_trans (a b c : datetime) :
  leb a b = true -> leb b c = true -> leb a c = true.
Proof.
  assert (E : forall x y, leb x y = true <-> compare x y <> Gt).
  { intros x y. unfold leb. destruct (compare x y); split; congruence. }
  rewrite !E, !compare_lex.
  repeat (apply lex_leb_trans).
  destruct (Z.compare_spec (microsecond a) (microsecond b)),
    (Z.compare_spec (microsecond b) (microsecond c)),
    (Z.compare_spec (microsecond a) (microsecond c));
    try lia; congruence.
Qed.

Lemma is_digit_digit (n : Z) : is_digit (digit n) = true.
Proof. unfold is_digit. rewrite digit_val_digit. reflexivity. Qed.

Lemma strftime_pattern (d : datetime) :
  1000 <= year d -> is_timestamp_pattern (strftime d) = true.
Proof.
  intros Hy. unfold strftime, format_year.
  rewrite !(proj2 (Z.ltb_ge _ _)) by lia.
  unfold is_timestamp_pattern, pad4, pad2. simpl.
  rewrite !is_digit_digit. reflexivity.
Qed.

(** The formatted timestamp is plain text of at most 19 characters. *)
Lemma legal_digit (n : Z) : Openpyxl.illegal_character (digit n) = false.
Proof.
  unfold Openpyxl.illegal_character. rewrite digit_code.
  assert (0 <= n mod 10 < 10) by (apply Z.mod_pos_bound; lia).
  rewrite Z2N.id by lia. cbv zeta.
  repeat match goal with
         | |- context [?a <=? ?b] => destruct (Z.leb_spec a b); try lia
         end; reflexivity.
Qed.

Lemma strftime_legal (d : datetime) :
  existsb Openpyxl.illegal_character (list_ascii_of_string (strftime d)) = false
  /\ (String.length (strftime d) <= 19)%nat.
Proof.
  unfold strftime, format_year, pad4, pad2.
  destruct (year d <? 10), (year d <? 100), (year d <? 1000); simpl;
    rewrite !legal_digit; split; try reflexivity; lia.
Qed.

Example isoformat_fraction :
  isoformat (mk_datetime 2025 1 15 9 30 5 123456 utc)
  = "2025-01-15T09:30:05.123456+00:00".
Proof. reflexivity. Qed.

Example isoformat_whole_second :
  isoformat (mk_datetime 2025 1 15 9 30 5 0 utc) = "2025-01-15T09:30:05+00:00".
Proof. reflexivity. Qed.

Example fromisoformat_fraction :
  fromisoformat "2025-01-15T09:30:05.123456+00:00"
  = Some (mk_datetime 2025 1 15 9 30 5 123456 utc).
Proof. reflexivity. Qed.

Example fromisoformat_milliseconds_offset :
  fromisoformat "2025-01-15 09:30:05.123-05:30"
  = Some (mk_datetime 2025 1 15 9 30 5 123000 (Some (-330))).
Proof. reflexivity. Qed.

Example fromisoformat_empty : fromisoformat "" = None.
Proof. reflexivity. Qed.

Example fromisoformat_no_such_day : fromisoformat "2025-02-29" = None.
Proof. reflexivity. Qed.

Example fromisoformat_leap_day :
  fromisoformat "2024-02-29" = Some (mk_datetime 2024 2 29 0 0 0 0 None).
Proof. reflexivity. Qed.

Example strftime_sample :
  strftime (mk_datetime 2025 1 15 9 30 5 123456 utc) = "2025-01-15 09:30:05".
Proof. reflexivity. Qed.

Example strftime_early :
  strftime (mk_datetime 999 1 2 3 4 5 0 None) = "999-01-02 03:04:05"
  /\ is_timestamp_pattern (strftime (mk_datetime 999 1 2 3 4 5 0 None)) = false.
Proof. split; reflexivity. Qed.

End DatetimeFacts.

(** ** Facts about the collections *)

Module MongoFacts.
Import Mongo.

Lemma number_compare_antisym (m1 e1 m2 e2 : Z) :
  number_compare m1 e1 m2 e2 = CompOpp (number_compare m2 e2 m1 e1).
Proof.
  unfold number_compare. rewrite (Z.min_comm e2 e1). apply Z.compare_antisym.
Qed.

Lemma bson_compare_antisym (a b : option pyval) :
  bson_compare a b = CompOpp (bson_compare b a).
Proof.
  destruct a as [[]|], b as [[]|]; try reflexivity; unfold bson_compare; simpl;
    first [ apply number_compare_antisym | apply Z.compare_antisym
          | apply String.compare_antisym | apply DatetimeFacts.compare_antisym ].
Qed.

Lemma bson_leb_total (a b : option pyval) :
  bson_leb a b = false -> bson_leb b a = true.
Proof.
  unfold bson_leb. rewrite (bson_compare_antisym b a).
  destruct (bson_compare a b); simpl; congruence.
Qed.

Lemma insert_desc_perm (key : string) (x : doc) (l : list doc) :
  Permutation (insert_desc key x l) (x :: l).
Proof.
  induction l as [|y l IH]; simpl; [reflexivity|].
  destruct (bson_leb _ _); [reflexivity|].
  rewrite IH. apply perm_swap.
Qed.

Lemma sort_desc_perm (key : string) (l : list doc) :
  Permutation (sort_desc key l) l.
Proof.
  induction l as [|x l IH]; simpl; [reflexivity|].
  rewrite insert_desc_perm. apply perm_skip, IH.
Qed.

Lemma insert_desc_hd (key : string) (x z : doc) (l : list doc) :
  desc key z x -> HdRel (desc key) z l -> HdRel (desc key) z (insert_desc key x l).
Proof.
  intros Hzx Hzl. destruct l as [|y l]; simpl; [constructor; exact Hzx|].
  destruct (bson_leb _ _); constructor; [exact Hzx|].
  inversion Hzl; assumption.
Qed.

Lemma insert_desc_sorted (key : string) (x : doc) (l : list doc) :
  Sorted (desc key) l -> Sorted (desc key) (insert_desc key x l).
Proof.
  induction 1 as [|y l Hl IH Hhd]; simpl.
  - repeat constructor.
  - destruct (bson_leb (y !! key) (x !! key)) eqn:E.
    + constructor; [constructor; assumption|]. constructor. exact E.
    + constructor; [exact IH|].
      apply insert_desc_hd; [|exact Hhd].
      apply bson_leb_total. exact E.
Qed.

Lemma sort_desc_sorted (key : string) (l : list doc) :
  Sorted (desc key) (sort_desc key l).
Proof.
  induction l as [|x l IH]; simpl; [constructor|].
  apply insert_desc_sorted, IH.
Qed.

Lemma encodable_dict (d : doc) :
  encodable (VDict d) = true
  <-> forall k v, d !! k = Some v -> encodable v = true.
Proof.
  simpl.
  apply (map_fold_weak_ind
           (fun r (m : doc) =>
              r = true <-> forall k v, m !! k = Some v -> encodable v = true)).
  - split; [|reflexivity]. intros _ k v H. rewrite lookup_empty in H. discriminate.
  - intros i x m r Hi IH. rewrite andb_true_iff, IH. split.
    + intros [Hx Hm] k v. destruct (decide (k = i)) as [->|Hne].
      * rewrite lookup_insert_eq. intros [= <-]. exact Hx.
      * rewrite lookup_insert_ne by congruence. apply Hm.
    + intros H. split.
      * apply (H i). apply lookup_insert_eq.
      * intros k v Hk. apply (H k). rewrite lookup_insert_ne; [exact Hk|].
        intros ->. congruence.
Qed.

Lemma to_list_length (n : Z) (l : list doc) :
  length (to_list n l) = Nat.min (Z.to_nat n) (length l).
Proof. unfold to_list. apply length_take. Qed.

End MongoFacts.

(** ** Facts about the worksheet calls *)

Module OpenpyxlFacts.
Import Openpyxl.

Lemma slice_short (n : Z) (s : string) :
  Z.of_nat (String.length s) <= n -> slice n s = s.
Proof.
  revert n. induction s as [|c s IH]; intros n Hn; [reflexivity|].
  cbn [slice]. cbn [String.length] in Hn.
  destruct (starts_character c).
  - destruct (Z.leb_spec n 0); [lia|]. rewrite IH by lia. reflexivity.
  - rewrite IH by lia. reflexivity.
Qed.

(** A value the sheet takes is kept as [stored] gives it. *)
Lemma bind_value_writable (v : pyval) :
  writable v = true ->
  bind_value v = Ok (stored v) /\ timezone_free (stored v) = true.
Proof.
  destruct v as [| | | |s|t| |]; cbn [writable bind_value stored];
    try discriminate; try (intros H; split; [reflexivity|exact H]).
  unfold check_string. intros H. apply negb_true_iff in H.
  rewrite H. split; reflexivity.
Qed.

(** A value it does not take makes [ws.append] raise, or [wb.save] later. *)
Lemma bind_value_refused (v : pyval) :
  writable v = false ->
  (exists e, bind_value v = Raise e
             /\ (e = IllegalCharacterError \/ e = ValueError))
  \/ (bind_value v = Ok v /\ timezone_free v = false).
Proof.
  destruct v as [| | | |s|t| |]; cbn [writable bind_value timezone_free];
    try discriminate;
    try (intros _; left; eexists; split; [reflexivity|right; reflexivity]).
  - unfold check_string. intros H. apply negb_false_iff in H. rewrite H.
    left. eexists. split; [reflexivity|left; reflexivity].
  - intros H. right. split; [reflexivity|exact H].
Qed.

Lemma append_length (row cells : list pyval) :
  append row = Ok cells -> length cells = length row.
Proof.
  unfold append. revert cells. induction row as [|v row IH]; intros cells.
  - intros [= <-]. reflexivity.
  - cbn [for_each]. destruct (bind_value v) as [c|]; [|discriminate].
    cbn. destruct (for_each bind_value row) as [cs|]; [|discriminate].
    cbn. intros [= <-]. cbn. f_equal. apply IH. reflexivity.
Qed.

Lemma append_writable (row : list pyval) :
  Forall (fun v => writable v = true) row ->
  append row = Ok (map stored row)
  /\ forallb timezone_free (map stored row) = true.
Proof.
  unfold append. induction 1 as [|v row Hv _ [IH1 IH2]]; [split; reflexivity|].
  destruct (bind_value_writable v Hv) as [Hb Ht].
  cbn [for_each map forallb]. rewrite Hb. cbn. rewrite IH1. cbn.
  rewrite Ht, IH2. split; reflexivity.
Qed.

Lemma append_refused (row : list pyval) :
  Exists (fun v => writable v = false) row ->
  (exists e, append row = Raise e
             /\ (e = IllegalCharacterError \/ e = ValueError))
  \/ (exists cells, append row = Ok cells
                    /\ forallb timezone_free cells = false).
Proof.
  unfold append. induction row as [|v row IH]; intros H; [inversion H|].
  cbn [for_each].
  destruct (writable v) eqn:Hv.
  - destruct (bind_value_writable v Hv) as [Hb Ht]. rewrite Hb. cbn.
    assert (Hrow : Exists (fun v => writable v = false) row)
      by (inversion H; subst; [congruence|assumption]).
    destruct (IH Hrow) as [(e & -> & He)|(cells & -> & Hc)]; cbn.
    + left. exists e. split; [reflexivity|exact He].
    + right. eexists. split; [reflexivity|].
      cbn [forallb]. rewrite Hc. apply andb_false_r.
  - destruct (bind_value_refused v Hv) as [(e & -> & He)|[-> Ht]]; cbn.
    + left. exists e. split; [reflexivity|exact He].
    + destruct (for_each bind_value row) as [cells|e] eqn:E; cbn.
      * right. eexists. split; [reflexivity|]. cbn [forallb]. rewrite Ht.
        reflexivity.
      * left. exists e. split; [reflexivity|].
        clear -E. revert e E. induction row as [|x row IHr]; intros e;
          [discriminate|].
        cbn [for_each]. destruct (bind_value x) as [c|e'] eqn:Hx; cbn.
        -- destruct (for_each bind_value row) as [cs|e''] eqn:Er; cbn;
             [discriminate|]. intros [= <-]. apply (IHr e''). reflexivity.
        -- intros [= <-]. clear -Hx.
           destruct x as [| | | |s|t| |]; cbn in Hx; try discriminate;
             try (injection Hx as <-; right; reflexivity).
           unfold check_string in Hx.
           destruct (existsb _ _); cbn in Hx; [|discriminate].
           injection Hx as <-. left. reflexivity.
Qed.

Lemma writable_strftime (t : datetime) :
  writable (VStr (Datetime.strftime t)) = true
  /\ stored (VStr (Datetime.strftime t)) = VStr (Datetime.strftime t).
Proof.
  destruct (DatetimeFacts.strftime_legal t) as [Hlegal Hlen].
  cbn [writable stored]. rewrite slice_short by lia.
  rewrite Hlegal. split; reflexivity.
Qed.

Example check_string_control_character :
  check_string (String (ascii_of_nat 1) "abc") = Raise IllegalCharacterError
  /\ check_string "Test User" = Ok "Test User"
  /\ bind_value (VList []) = Raise ValueError.
Proof. repeat split. Qed.

End OpenpyxlFacts.

(** ** The scoring engine *)

Lemma fold_left_add (l : list Z) (a : Z) :
  fold_left Z.add l a = a + foldr Z.add 0 l.
Proof.
  revert a. induction l as [|x l IH]; intros a; simpl; [lia|].
  rewrite IH. lia.
Qed.

Lemma sum_foldr (l : list Z) : sum l = foldr Z.add 0 l.
Proof. unfold sum. rewrite fold_left_add. lia. Qed.

(** The label is a function of the total alone. *)
Lemma calculate_score_and_result_values (answers1 answers2 : list Answer.t) :
  map Answer.value answers1 = map Answer.value answers2 ->
  calculate_score_and_result answers1 = calculate_score_and_result answers2.
Proof. intros H. unfold calculate_score_and_result. rewrite H. reflexivity. Qed.

(** C1. For every sequence of answers the scoring function returns as total
    the plain sum of the answer values, and the label that the inclusive
    thresholds 28 and 42 give that total; totals 28, 29, 42 and 43 fall as
    stated, and values outside 1..5 are summed like any other. *)
Theorem calculate_score_and_result_spec (answers : list Answer.t) :
  (exists result,
     calculate_score_and_result answers
     = (foldr Z.add 0 (map Answer.value answers), result)
     /\ ((foldr Z.add 0 (map Answer.value answers) <= 28
          /\ result = "Ama not present")
         \/ (28 < foldr Z.add 0 (map Answer.value answers) <= 42
             /\ result = "Ama slightly present")
         \/ (42 < foldr Z.add 0 (map Answer.value answers)
             /\ result = "Ama Present")))
  /\ calculate_score_and_result (replicate 14 (Answer.mk 1 2))
     = (28, "Ama not present")
  /\ calculate_score_and_result (replicate 14 (Answer.mk 1 2) ++ [Answer.mk 15 1])
     = (29, "Ama slightly present")
  /\ calculate_score_and_result (replicate 14 (Answer.mk 1 3))
     = (42, "Ama slightly present")
  /\ calculate_score_and_result (replicate 14 (Answer.mk 1 3) ++ [Answer.mk 15 1])
     = (43, "Ama Present")
  /\ calculate_score_and_result [Answer.mk 1 100; Answer.mk 2 (-7)]
     = (93, "Ama Present").
Proof.
  split; [|repeat split; reflexivity].
  unfold calculate_score_and_result. rewrite sum_foldr.
  set (total := foldr Z.add 0 (map Answer.value answers)).
  eexists. split; [reflexivity|].
  destruct (Z.leb_spec total 28); [left; split; [lia|reflexivity]|].
  destruct (Z.leb_spec total 42); [right; left|right; right];
    (split; [lia|reflexivity]).
Qed.

(** The answers of the test suite's submission add up to 30. *)
Example calculate_score_and_result_test_submission :
  calculate_score_and_result
    (map (Answer.mk 0) [3; 2; 1; 4; 2; 3; 1; 2; 3; 1; 2; 3; 2; 1])
  = (30, "Ama slightly present").
Proof. reflexivity. Qed.

(** ** The admin login *)

(** C6. A login succeeds (200, success = true) exactly when the username
    and the password both equal the fixed credentials, character for
    character; every other request is answered by the 401 failure, and
    there is no third outcome. *)
Theorem admin_login_spec (login : AdminLogin.t) :
  ((exists response,
      admin_login login = Ok response
      /\ AdminLoginResponse.success response = true)
   <-> (AdminLogin.username login = ADMIN_USERNAME
        /\ AdminLogin.password login = ADMIN_PASSWORD))
  /\ ((admin_login login = Ok (AdminLoginResponse.mk true "Login successful")
       /\ status (admin_login login) = 200)
      \/ (admin_login login = Raise (HTTPException 401 "Invalid credentials")
          /\ status (admin_login login) = 401
          /\ (AdminLogin.username login <> ADMIN_USERNAME
              \/ AdminLogin.password login <> ADMIN_PASSWORD)))
  /\ status (admin_login (AdminLogin.mk "Admin_kamch" "admin_kamch123")) = 401
  /\ status (admin_login (AdminLogin.mk "admin_kamch" "ADMIN_KAMCH123")) = 401
  /\ status (admin_login (AdminLogin.mk "admin_kamch" "admin_kamch123")) = 200.
Proof.
  split; [|split; [|repeat split; reflexivity]]; unfold admin_login;
    destruct (String.eqb_spec (AdminLogin.username login) ADMIN_USERNAME) as [Hu|Hu];
    destruct (String.eqb_spec (AdminLogin.password login) ADMIN_PASSWORD) as [Hp|Hp];
    simpl.
  - split; [tauto|]. intros _. eexists. split; reflexivity.
  - split; [intros (r & H & _); discriminate H | tauto].
  - split; [intros (r & H & _); discriminate H | tauto].
  - split; [intros (r & H & _); discriminate H | tauto].
  - left. split; reflexivity.
  - right. repeat split. right. exact Hp.
  - right. repeat split. left. exact Hu.
  - right. repeat split. left. exact Hu.
Qed.

(** ** Request validation *)

Section ValidationFacts.

Variable validate_str : pyval -> option string.
Variable validate_int : pyval -> option Z.

Lemma required_None {A} (validate : pyval -> option A) (d : doc) (key : string) :
  required validate d key = None <-> bad_field validate d key.
Proof.
  unfold required. split.
  - destruct (d !! key) as [v|] eqn:E; simpl; intros H.
    + eapply field_mistyped; eauto.
    + apply field_missing. exact E.
  - intros [E|v E Hv]; rewrite E; simpl; auto.
Qed.

Lemma validate_Answer_None (v : pyval) :
  validate_Answer validate_int v = None <-> bad_Answer validate_int v.
Proof.
  split.
  - destruct v as [| | | | | | |d];
      try (intros _; apply answer_not_object; intros d'; discriminate).
    simpl. intros H.
    destruct (required validate_int d "question_id") eqn:E1; simpl in H.
    + destruct (required validate_int d "value") eqn:E2; simpl in H;
        [discriminate|].
      apply (answer_bad_field _ d "value"); [set_solver|].
      apply required_None. exact E2.
    + apply (answer_bad_field _ d "question_id"); [set_solver|].
      apply required_None. exact E1.
  - intros [v' Hv|d key Hk Hbad].
    + destruct v'; try reflexivity. exfalso. eapply Hv. reflexivity.
    + apply required_None in Hbad. simpl.
      apply list_elem_of_In in Hk. simpl in Hk.
      destruct Hk as [<-|[<-|[]]].
      * rewrite Hbad. reflexivity.
      * rewrite Hbad. destruct (required validate_int d "question_id"); reflexivity.
Qed.

Lemma validate_answers_None (v : pyval) :
  validate_answers validate_int v = None <-> bad_answers validate_int v.
Proof.
  split.
  - destruct v as [| | | | | |l|];
      try (intros _; apply answers_not_list; intros l'; discriminate).
    simpl. intros H. apply mapM_None in H. apply Exists_exists in H.
    destruct H as (x & Hx & Hbad).
    apply (answers_bad_item _ l x); [exact Hx|].
    apply validate_Answer_None. exact Hbad.
  - intros [v' Hv|l x Hx Hbad].
    + destruct v'; try reflexivity. exfalso. eapply Hv. reflexivity.
    + simpl. apply mapM_None. apply Exists_exists. exists x. split; [exact Hx|].
      apply validate_Answer_None. exact Hbad.
Qed.

(** Each step of a validation either fails or hands a value on. *)
Ltac step H :=
  match type of H with
  | (required ?f ?d ?k ≫= _) = _ =>
      let E := fresh "E" in
      destruct (required f d k) eqn:E; simpl in H
  end.

(** The validation of a submission fails exactly on the payloads with a
    required field missing or mistyped. *)
Lemma validate_AssessmentSubmission_None (body : pyval) :
  validate_AssessmentSubmission validate_str validate_int body = None
  <-> bad_AssessmentSubmission validate_str validate_int body.
Proof.
  split.
  - destruct body as [| | | | | | |d];
      try (intros _; apply submission_not_object; intros d'; discriminate).
    simpl. intros H.
    step H; [|apply (submission_bad_str _ _ d "name");
              [set_solver|apply required_None; assumption]].
    step H; [|apply (submission_bad_str _ _ d "age");
              [set_solver|apply required_None; assumption]].
    step H; [|apply (submission_bad_str _ _ d "gender");
              [set_solver|apply required_None; assumption]].
    step H; [|apply (submission_bad_str _ _ d "date");
              [set_solver|apply required_None; assumption]].
    step H; [|apply (submission_bad_str _ _ d "mobile");
              [set_solver|apply required_None; assumption]].
    step H; [discriminate|].
    match goal with Ha : required _ d "answers" = None |- _ =>
      apply required_None in Ha; destruct Ha as [Hmiss|v Hsome Hv] end.
    + apply submission_answers_missing. exact Hmiss.
    + eapply submission_bad_answers; [exact Hsome|].
      apply validate_answers_None. exact Hv.
  - intros [b Hb|d key Hk Hbad|d E|d v E Hv].
    + destruct b; try reflexivity. exfalso. eapply Hb. reflexivity.
    + apply required_None in Hbad. simpl.
      apply list_elem_of_In in Hk. simpl in Hk.
      destruct Hk as [<-|[<-|[<-|[<-|[<-|[]]]]]]; rewrite Hbad;
        repeat match goal with
               | |- context [required ?f d ?k] =>
                   destruct (required f d k); simpl; try reflexivity
               end.
    + assert (Ha : required (validate_answers validate_int) d "answers" = None)
        by (apply required_None, field_missing; exact E).
      simpl. rewrite Ha.
      repeat match goal with
             | |- context [required ?f d ?k] =>
                 destruct (required f d k); simpl; try reflexivity
             end.
    + apply validate_answers_None in Hv.
      assert (Ha : required (validate_answers validate_int) d "answers" = None)
        by (apply required_None; eapply field_mistyped; eauto).
      simpl. rewrite Ha.
      repeat match goal with
             | |- context [required ?f d ?k] =>
                 destruct (required f d k); simpl; try reflexivity
             end.
Qed.



End ValidationFacts.

(** ** Record creation *)

Lemma answers_to_dicts_id (d : doc) : answers_to_dicts d = d.
Proof.
  unfold answers_to_dicts. apply alter_id.
  intros [] _; try reflexivity. f_equal. apply map_id.
Qed.

Lemma serialize_timestamp_assessment (a : Assessment.t) :
  serialize_timestamp (Assessment.model_dump a) = Assessment.document a.
Proof. destruct a. reflexivity. Qed.

Lemma serialize_timestamp_contact (c : ContactRequest.t) :
  serialize_timestamp (ContactRequest.model_dump c) = ContactRequest.document c.
Proof. destruct c. reflexivity. Qed.

(** *** What the driver can encode *)

Ltac lookup_cases H :=
  repeat (apply lookup_insert_Some in H;
          destruct H as [[<- <-]|[_ H]]; [try reflexivity|]);
  try (rewrite lookup_empty in H; discriminate H).

Lemma encodable_Answer (a : Answer.t) :
  Mongo.encodable (Answer.model_dump a)
  = Mongo.int64 (Answer.question_id a) && Mongo.int64 (Answer.value a).
Proof.
  destruct a as [q v]. apply Bool.eq_iff_eq_true.
  unfold Answer.model_dump. rewrite MongoFacts.encodable_dict, andb_true_iff.
  cbn [Answer.question_id Answer.value]. split.
  - intros H. split.
    + apply (H "question_id" (VInt q)). reflexivity.
    + apply (H "value" (VInt v)). reflexivity.
  - intros [Hq Hv] k x Hk. cbn [list_to_map foldr uncurry] in Hk.
    lookup_cases Hk; assumption.
Qed.

Lemma encodable_answers (answers : list Answer.t) :
  forallb Mongo.encodable (map Answer.model_dump answers)
  = forallb (fun a => Mongo.int64 (Answer.question_id a)
                      && Mongo.int64 (Answer.value a)) answers.
Proof.
  induction answers as [|a l IH]; [reflexivity|].
  cbn [map forallb]. rewrite encodable_Answer, IH. reflexivity.
Qed.

(** The document of an assessment encodes exactly when its integers fit
    64 bits. *)
Lemma encodable_Assessment (a : Assessment.t) :
  Mongo.encodable (VDict (Assessment.document a))
  = forallb (fun x => Mongo.int64 (Answer.question_id x)
                      && Mongo.int64 (Answer.value x)) (Assessment.answers a)
    && Mongo.int64 (Assessment.score a).
Proof.
  destruct a. apply Bool.eq_iff_eq_true.
  rewrite MongoFacts.encodable_dict, andb_true_iff, <- encodable_answers.
  cbn [Assessment.answers Assessment.score]. split.
  - intros H. split.
    + apply (H "answers" (VList (map Answer.model_dump answers))). reflexivity.
    + apply (H "score" (VInt score)). reflexivity.
  - intros [Ha Hs] k x Hk. unfold Assessment.document in Hk.
    cbn [list_to_map foldr uncurry Assessment.id Assessment.name Assessment.age
         Assessment.gender Assessment.date Assessment.mobile Assessment.answers
         Assessment.score Assessment.result Assessment.timestamp] in Hk.
    lookup_cases Hk; assumption.
Qed.

(** The document of a contact request always encodes: it holds no
    integer. *)
Lemma encodable_ContactRequest (c : ContactRequest.t) :
  Mongo.encodable (VDict (ContactRequest.document c)) = true.
Proof.
  destruct c as [i n m e msg t]. apply MongoFacts.encodable_dict.
  intros k x Hk. unfold ContactRequest.document in Hk.
  cbn [list_to_map foldr uncurry ContactRequest.id ContactRequest.name
       ContactRequest.mobile ContactRequest.email ContactRequest.message
       ContactRequest.timestamp] in Hk.
  lookup_cases Hk. destruct e; reflexivity.
Qed.

(** [create_assessment] builds the record and inserts its document, when
    the driver can encode it. *)
Lemma create_assessment_eq (uuid4 : string) (now : datetime)
    (submission : AssessmentSubmission.t) (db : Mongo.database) :
  let assessment :=
    Assessment.mk uuid4
      (AssessmentSubmission.name submission) (AssessmentSubmission.age submission)
      (AssessmentSubmission.gender submission) (AssessmentSubmission.date submission)
      (AssessmentSubmission.mobile submission) (AssessmentSubmission.answers submission)
      (calculate_score_and_result (AssessmentSubmission.answers submission)).1
      (calculate_score_and_result (AssessmentSubmission.answers submission)).2
      now in
  Mongo.insert_one Mongo.Assessments (Assessment.document assessment) db
  = (if fits_int64 (AssessmentSubmission.answers submission)
     then Ok (Mongo.mk (Mongo.assessments db ++ [Assessment.document assessment])
                (Mongo.contact_requests db) (S (Mongo.writes db)))
     else Raise OverflowError)
  /\ create_assessment uuid4 now submission db
     = if fits_int64 (AssessmentSubmission.answers submission)
       then (Ok assessment,
             Mongo.mk (Mongo.assessments db ++ [Assessment.document assessment])
               (Mongo.contact_requests db) (S (Mongo.writes db)))
       else (Raise OverflowError, db).
Proof.
  cbv zeta. unfold create_assessment.
  destruct (calculate_score_and_result _) as [score result] eqn:E.
  cbn [fst snd].
  rewrite answers_to_dicts_id, serialize_timestamp_assessment.
  unfold Mongo.insert_one. rewrite encodable_Assessment.
  cbn [Assessment.answers Assessment.score].
  unfold fits_int64. rewrite E. cbn [fst].
  destruct (forallb _ _ && Mongo.int64 score); split; reflexivity.
Qed.

Lemma create_assessment_Ok (uuid4 : string) (now : datetime)
    (submission : AssessmentSubmission.t) (db db' : Mongo.database)
    (assessment : Assessment.t) :
  create_assessment uuid4 now submission db = (Ok assessment, db') ->
  fits_int64 (AssessmentSubmission.answers submission) = true
  /\ assessment
     = Assessment.mk uuid4
         (AssessmentSubmission.name submission) (AssessmentSubmission.age submission)
         (AssessmentSubmission.gender submission)
         (AssessmentSubmission.date submission)
         (AssessmentSubmission.mobile submission)
         (AssessmentSubmission.answers submission)
         (calculate_score_and_result (AssessmentSubmission.answers submission)).1
         (calculate_score_and_result (AssessmentSubmission.answers submission)).2
         now
  /\ db' = Mongo.mk (Mongo.assessments db ++ [Assessment.document assessment])
             (Mongo.contact_requests db) (S (Mongo.writes db)).
Proof.
  rewrite (proj2 (create_assessment_eq uuid4 now submission db)).
  destruct (fits_int64 _); [|discriminate].
  intros H. injection H as <- <-. repeat split.
Qed.

Lemma create_contact_request_eq (uuid4 : string) (now : datetime)
    (request : ContactRequestCreate.t) (db : Mongo.database) :
  let contact_req :=
    ContactRequest.mk uuid4
      (ContactRequestCreate.name request) (ContactRequestCreate.mobile request)
      (ContactRequestCreate.email request) (ContactRequestCreate.message request)
      now in
  let db' :=
    Mongo.mk (Mongo.assessments db)
      (Mongo.contact_requests db ++ [ContactRequest.document contact_req])
      (S (Mongo.writes db)) in
  Mongo.insert_one Mongo.ContactRequests (ContactRequest.document contact_req) db
  = Ok db'
  /\ create_contact_request uuid4 now request db = (Ok contact_req, db').
Proof.
  cbv zeta. unfold create_contact_request.
  rewrite serialize_timestamp_contact. unfold Mongo.insert_one.
  rewrite encodable_ContactRequest. split; reflexivity.
Qed.




(** C3. A payload with a required field missing or mistyped makes
    [POST /assessments] fail with the validation error, answered 422, and
    leaves the database as it was. *)
Theorem post_assessments_invalid
    (validate_str : pyval -> option string) (validate_int : pyval -> option Z)
    (uuid4 : string) (now : datetime) (body : pyval) (db : Mongo.database) :
  bad_AssessmentSubmission validate_str validate_int body ->
  post_assessments validate_str validate_int uuid4 now body db
  = (Raise RequestValidationError, db)
  /\ status (post_assessments validate_str validate_int uuid4 now body db).1 = 422
  /\ (post_assessments validate_str validate_int uuid4 now body db).2 = db.
Proof.
  intros Hbad. apply validate_AssessmentSubmission_None in Hbad.
  unfold post_assessments. rewrite Hbad. repeat split.
Qed.

Lemma post_assessments_invalid_witness :
  bad_AssessmentSubmission strict_str strict_int incomplete_body
  /\ post_assessments strict_str strict_int "id-1" sample_now incomplete_body
       sample_db
     = (Raise RequestValidationError, sample_db).
Proof.
  assert (H : bad_AssessmentSubmission strict_str strict_int incomplete_body).
  { apply (submission_bad_str _ _ _ "age").
    - apply list_elem_of_In. right. left. reflexivity.
    - apply field_missing. reflexivity. }
  split; [exact H|].
  exact (proj1 (post_assessments_invalid strict_str strict_int "id-1" sample_now
                  incomplete_body sample_db H)).
Defined.



(** C10. A submission whose [answers] is the empty list is accepted: the
    scoring function gives total 0 and "Ama not present" on the empty
    sequence, and the record is stored with score 0. *)
Theorem post_assessments_empty_answers
    (validate_str : pyval -> option string) (validate_int : pyval -> option Z)
    (uuid4 : string) (now : datetime) (d : doc) (db : Mongo.database)
    (name age gender date mobile : string) :
  required validate_str d "name" = Some name ->
  required validate_str d "age" = Some age ->
  required validate_str d "gender" = Some gender ->
  required validate_str d "date" = Some date ->
  required validate_str d "mobile" = Some mobile ->
  d !! "answers" = Some (VList []) ->
  calculate_score_and_result [] = (0, "Ama not present")
  /\ exists assessment db',
       post_assessments validate_str validate_int uuid4 now (VDict d) db
       = (Ok assessment, db')
       /\ status (Ok assessment) = 200
       /\ assessment
          = Assessment.mk uuid4 name age gender date mobile [] 0
              "Ama not present" now
       /\ Mongo.assessments db'
          = Mongo.assessments db ++ [Assessment.document assessment]
       /\ Assessment.document assessment !! "score" = Some (VInt 0)
       /\ Assessment.document assessment !! "result"
          = Some (VStr "Ama not present")
       /\ Assessment.document assessment !! "answers" = Some (VList []).
Proof.
  intros Hn Ha Hg Hd Hm Hans. split; [reflexivity|].
  assert (Hv : validate_AssessmentSubmission validate_str validate_int (VDict d)
               = Some (AssessmentSubmission.mk name age gender date mobile [])).
  { simpl. rewrite Hn, Ha, Hg, Hd, Hm. simpl.
    unfold required. rewrite Hans. reflexivity. }
  unfold post_assessments. rewrite Hv.
  rewrite (proj2 (create_assessment_eq _ _ _ _)). cbv zeta.
  cbn [AssessmentSubmission.answers].
  change (fits_int64 []) with true. cbv iota.
  eexists. eexists. split; [reflexivity|]. repeat split.
Qed.

Lemma post_assessments_empty_answers_witness :
  required strict_str empty_answers_doc "name" = Some "Test User"
  /\ required strict_str empty_answers_doc "age" = Some "18 yrs above"
  /\ required strict_str empty_answers_doc "gender" = Some "Male"
  /\ required strict_str empty_answers_doc "date" = Some "2025-01-15"
  /\ required strict_str empty_answers_doc "mobile" = Some "9876543210"
  /\ empty_answers_doc !! "answers" = Some (VList [])
  /\ exists assessment db',
       post_assessments strict_str strict_int "id-4" sample_now
         (VDict empty_answers_doc) Mongo.empty = (Ok assessment, db')
       /\ Assessment.score assessment = 0
       /\ length (Mongo.assessments db') = 1%nat.
Proof.
  assert (Hn : required strict_str empty_answers_doc "name" = Some "Test User")
    by reflexivity.
  assert (Ha : required strict_str empty_answers_doc "age" = Some "18 yrs above")
    by reflexivity.
  assert (Hg : required strict_str empty_answers_doc "gender" = Some "Male")
    by reflexivity.
  assert (Hd : required strict_str empty_answers_doc "date" = Some "2025-01-15")
    by reflexivity.
  assert (Hm : required strict_str empty_answers_doc "mobile" = Some "9876543210")
    by reflexivity.
  assert (Hans : empty_answers_doc !! "answers" = Some (VList []))
    by reflexivity.
  repeat (split; [assumption|]).
  destruct (post_assessments_empty_answers strict_str strict_int "id-4" sample_now
              empty_answers_doc Mongo.empty _ _ _ _ _ Hn Ha Hg Hd Hm Hans)
    as (_ & a & db' & H1 & _ & H3 & H4 & _).
  exists a, db'. split; [exact H1|]. split.
  - rewrite H3. reflexivity.
  - rewrite H4. reflexivity.
Defined.

(** ** Timestamps on the way to the database and back *)

Lemma document_timestamp (a : Assessment.t) :
  Assessment.document a !! "timestamp"
  = Some (VStr (Datetime.isoformat (Assessment.timestamp a))).
Proof. destruct a. reflexivity. Qed.

Lemma restore_timestamp_document (a : Assessment.t) :
  Datetime.valid (Assessment.timestamp a) = true ->
  restore_timestamp (Assessment.document a) = Ok (Assessment.model_dump a).
Proof.
  intros Hv. unfold restore_timestamp. rewrite document_timestamp.
  rewrite (DatetimeFacts.fromisoformat_isoformat _ Hv).
  destruct a. reflexivity.
Qed.

(** C8. The ISO string written for a timestamp stamped at creation parses
    back to the same datetime, hence the same instant: for the assessment
    document (stored whenever the integers of the submission fit 64 bits)
    and the contact document the stored field is [isoformat] of the
    stamp, [fromisoformat] of it is the stamp, and the read side of
    [get_all_assessments] turns the stored document back into the dump of
    the record. *)
Theorem timestamp_round_trip (now : datetime) (uuid4 : string)
    (submission : AssessmentSubmission.t) (request : ContactRequestCreate.t)
    (db : Mongo.database) :
  Datetime.valid now = true ->
  Datetime.fromisoformat (Datetime.isoformat now) = Some now
  /\ (exists parsed,
        Datetime.fromisoformat (Datetime.isoformat now) = Some parsed
        /\ Datetime.compare parsed now = Eq
        /\ tzinfo parsed = tzinfo now)
  /\ (fits_int64 (AssessmentSubmission.answers submission) = true ->
      exists assessment db',
        create_assessment uuid4 now submission db = (Ok assessment, db'))
  /\ (forall assessment db',
        create_assessment uuid4 now submission db = (Ok assessment, db') ->
        exists d,
          last (Mongo.assessments db') = Some d
          /\ d !! "timestamp" = Some (VStr (Datetime.isoformat now))
          /\ timestamp_of d = Some now
          /\ restore_timestamp d = Ok (Assessment.model_dump assessment)
          /\ Assessment.model_dump assessment !! "timestamp"
             = Some (VDatetime now))
  /\ (exists contact_req db',
        create_contact_request uuid4 now request db = (Ok contact_req, db')
        /\ exists d,
             last (Mongo.contact_requests db') = Some d
             /\ d !! "timestamp" = Some (VStr (Datetime.isoformat now))
             /\ timestamp_of d = Some now).
Proof.
  intros Hv.
  pose proof (DatetimeFacts.fromisoformat_isoformat now Hv) as Hrt.
  split; [exact Hrt|]. split; [|split; [|split]].
  - exists now. split; [exact Hrt|]. split; [|reflexivity].
    rewrite DatetimeFacts.compare_lex. unfold Datetime.lex.
    rewrite !Z.compare_refl. reflexivity.
  - intros Hfit. rewrite (proj2 (create_assessment_eq uuid4 now submission db)).
    cbv zeta. rewrite Hfit. eexists. eexists. reflexivity.
  - intros assessment db' Hc.
    apply create_assessment_Ok in Hc. destruct Hc as (_ & -> & ->).
    cbn [Mongo.assessments].
    eexists. split; [apply last_snoc|].
    split; [apply document_timestamp|]. split.
    + unfold timestamp_of. rewrite document_timestamp. exact Hrt.
    + split; [apply restore_timestamp_document; exact Hv|reflexivity].
  - destruct (create_contact_request_eq uuid4 now request db) as [_ Hc].
    cbv zeta in Hc. eexists. eexists. split; [exact Hc|].
    cbn [Mongo.contact_requests].
    eexists. split; [apply last_snoc|].
    split; [reflexivity|].
    unfold timestamp_of.
    change (ContactRequest.document _ !! "timestamp")
      with (Some (VStr (Datetime.isoformat now))).
    exact Hrt.
Qed.

Lemma timestamp_round_trip_witness :
  Datetime.valid sample_now = true
  /\ Datetime.fromisoformat (Datetime.isoformat sample_now) = Some sample_now
  /\ exists assessment db' d,
       create_assessment "id-1" sample_now sample_submission Mongo.empty
       = (Ok assessment, db')
       /\ last (Mongo.assessments db') = Some d
       /\ timestamp_of d = Some sample_now.
Proof.
  split; [reflexivity|].
  destruct (timestamp_round_trip sample_now "id-1" sample_submission
              sample_contact Mongo.empty eq_refl) as (H1 & _ & _ & H3 & _).
  split; [exact H1|].
  destruct (H3 _ _ eq_refl) as (d & Hlast & _ & Hts & _).
  eexists. eexists. exists d. split; [reflexivity|]. split; assumption.
Defined.

(** ** Listing *)

(** Every database the service brings about holds documents of records
    stamped in UTC. *)
Lemma reachable_documents (db : Mongo.database) :
  reachable db ->
  exists records,
    Mongo.assessments db = map Assessment.document records
    /\ Forall (fun a => utc_instant (Assessment.timestamp a)) records.
Proof.
  induction 1 as [|uuid4 now submission db Hnow _ (records & Hdb & Hrec)
                  |uuid4 now request db Hnow _ IH].
  - exists []. split; [reflexivity|constructor].
  - rewrite (proj2 (create_assessment_eq uuid4 now submission db)). cbv zeta.
    destruct (fits_int64 _); cbn [snd Mongo.assessments];
      [|exists records; split; assumption].
    eexists (records ++ [_]). rewrite map_app, Hdb. split; [reflexivity|].
    apply Forall_app. split; [exact Hrec|]. repeat constructor; apply Hnow.
  - rewrite (proj2 (create_contact_request_eq uuid4 now request db)).
    cbv zeta. simpl. exact IH.
Qed.

Lemma desc_documents (a b : Assessment.t) :
  utc_instant (Assessment.timestamp a) -> utc_instant (Assessment.timestamp b) ->
  Mongo.desc "timestamp" (Assessment.document a) (Assessment.document b) ->
  newest_first a b.
Proof.
  intros [Hva Hza] [Hvb Hzb]. unfold Mongo.desc, newest_first.
  rewrite !document_timestamp. unfold Mongo.bson_leb, Mongo.bson_compare.
  cbn [Mongo.bson_rank]. rewrite Z.compare_refl.
  rewrite DatetimeFacts.string_compare_isoformat by congruence.
  intros H. exact H.
Qed.

Lemma sorted_documents (l : list Assessment.t) :
  Forall (fun a => utc_instant (Assessment.timestamp a)) l ->
  Sorted (Mongo.desc "timestamp") (map Assessment.document l) ->
  Sorted newest_first l.
Proof.
  induction l as [|a l IH]; intros Hl Hs; [constructor|].
  inversion Hl as [|? ? Ha Hl']; subst.
  inversion Hs as [|? ? Hs' Hhd]; subst.
  constructor; [apply IH; assumption|].
  destruct l as [|b l]; [constructor|].
  inversion Hl' as [|? ? Hb _]; subst.
  inversion Hhd; subst. constructor.
  apply desc_documents; assumption.
Qed.

Lemma newest_first_trans : Relation_Definitions.transitive _ newest_first.
Proof.
  intros a b c Hab Hbc. unfold newest_first in *.
  eapply DatetimeFacts.leb_trans; eassumption.
Qed.

Lemma for_each_restore (l : list Assessment.t) :
  Forall (fun a => utc_instant (Assessment.timestamp a)) l ->
  for_each restore_timestamp (map Assessment.document l)
  = Ok (map Assessment.model_dump l).
Proof.
  induction 1 as [|a l [Hv _] _ IH]; [reflexivity|].
  simpl. rewrite (restore_timestamp_document a Hv). simpl.
  rewrite IH. reflexivity.
Qed.

Lemma fetch_assessments_length (db : Mongo.database) :
  length (fetch_assessments db)
  = Nat.min (Z.to_nat 10000) (length (Mongo.assessments db)).
Proof.
  unfold fetch_assessments. rewrite MongoFacts.to_list_length.
  rewrite (Permutation_length (MongoFacts.sort_desc_perm _ _)). reflexivity.
Qed.

(** The listing of a database whose assessments are the documents of
    records stamped in UTC. *)
Lemma get_all_assessments_documents
    (db : Mongo.database) (records : list Assessment.t) :
  Mongo.assessments db = map Assessment.document records ->
  Forall (fun a => utc_instant (Assessment.timestamp a)) records ->
  exists sorted,
    Permutation sorted records
    /\ StronglySorted newest_first sorted
    /\ get_all_assessments db
       = Ok (map Assessment.model_dump (take (Z.to_nat 10000) sorted))
    /\ fetch_assessments db
       = map Assessment.document (take (Z.to_nat 10000) sorted)
    /\ StronglySorted newest_first (take (Z.to_nat 10000) sorted)
    /\ Z.of_nat (length (take (Z.to_nat 10000) sorted)) <= 10000
    /\ (Z.of_nat (length records) <= 10000 ->
        take (Z.to_nat 10000) sorted = sorted)
    /\ Forall (fun a =>
         Assessment.model_dump a !! "score" = Assessment.document a !! "score"
         /\ Assessment.model_dump a !! "result" = Assessment.document a !! "result"
         /\ Assessment.model_dump a !! "score" = Some (VInt (Assessment.score a))
         /\ Assessment.model_dump a !! "result" = Some (VStr (Assessment.result a)))
         sorted.
Proof.
  intros Hdb Hrec.
  pose proof (MongoFacts.sort_desc_perm "timestamp" (Mongo.assessments db)) as Hperm.
  rewrite Hdb in Hperm.
  apply Permutation_map_inv in Hperm. destruct Hperm as (sorted & Hsort & Hp).
  assert (Hfor : Forall (fun a => utc_instant (Assessment.timestamp a)) sorted).
  { eapply Permutation_Forall; [exact Hp|exact Hrec]. }
  assert (Hss : StronglySorted newest_first sorted).
  { apply Sorted_StronglySorted; [exact newest_first_trans|].
    apply sorted_documents; [exact Hfor|].
    rewrite <- Hsort, <- Hdb. apply MongoFacts.sort_desc_sorted. }
  assert (Hfetch : fetch_assessments db
                   = map Assessment.document (take (Z.to_nat 10000) sorted)).
  { unfold fetch_assessments, Mongo.to_list, Mongo.find.
    rewrite Hdb, Hsort. apply firstn_map. }
  exists sorted. split; [symmetry; exact Hp|]. split; [exact Hss|].
  split; [|split; [exact Hfetch|split; [|split; [|split]]]].
  - unfold get_all_assessments. rewrite Hfetch.
    apply for_each_restore. apply Forall_take. exact Hfor.
  - clear -Hss. generalize (Z.to_nat 10000). induction Hss as [|a l Hl IH Ha];
      intros [|n]; simpl; try constructor.
    + apply IH.
    + apply Forall_take. exact Ha.
  - rewrite length_take. lia.
  - intros Hle. apply take_ge. rewrite (Permutation_length (Permutation_sym Hp)). lia.
  - apply Forall_forall. intros [] _. repeat split.
Qed.

(** C4. In every state of the database that the service brings about,
    [get_all_assessments] returns the stored records newest first: the
    dumps of the first 10000 records of a rearrangement of the stored ones
    in which timestamps never increase, all of them when there are at most
    10000, each with the score and result of its stored document. *)
Theorem get_all_assessments_newest_first (db : Mongo.database) :
  reachable db ->
  exists records sorted,
    Mongo.assessments db = map Assessment.document records
    /\ Permutation sorted records
    /\ StronglySorted newest_first sorted
    /\ get_all_assessments db
       = Ok (map Assessment.model_dump (take (Z.to_nat 10000) sorted))
    /\ fetch_assessments db
       = map Assessment.document (take (Z.to_nat 10000) sorted)
    /\ StronglySorted newest_first (take (Z.to_nat 10000) sorted)
    /\ Z.of_nat (length (take (Z.to_nat 10000) sorted)) <= 10000
    /\ (Z.of_nat (length records) <= 10000 ->
        take (Z.to_nat 10000) sorted = sorted)
    /\ Forall (fun a =>
         Assessment.model_dump a !! "score" = Assessment.document a !! "score"
         /\ Assessment.model_dump a !! "result" = Assessment.document a !! "result"
         /\ Assessment.model_dump a !! "score" = Some (VInt (Assessment.score a))
         /\ Assessment.model_dump a !! "result" = Some (VStr (Assessment.result a)))
         sorted.
Proof.
  intros Hreach.
  destruct (reachable_documents db Hreach) as (records & Hdb & Hrec).
  destruct (get_all_assessments_documents db records Hdb Hrec) as (sorted & H).
  exists records, sorted. split; [exact Hdb|exact H].
Qed.

Lemma get_all_assessments_newest_first_witness :
  reachable sample_db
  /\ exists sorted,
       Permutation (map Assessment.document sorted) (Mongo.assessments sample_db)
       /\ StronglySorted newest_first sorted
       /\ get_all_assessments sample_db
          = Ok (map Assessment.model_dump (take (Z.to_nat 10000) sorted)).
Proof.
  assert (H : reachable sample_db).
  { unfold sample_db.
    apply reachable_assessment; [split; reflexivity|].
    apply reachable_assessment; [split; reflexivity|].
    apply reachable_empty. }
  split; [exact H|].
  destruct (get_all_assessments_newest_first sample_db H)
    as (records & sorted & Hdb & Hp & Hss & Hget & _).
  exists sorted. split; [|split; [exact Hss|exact Hget]].
  rewrite Hdb. apply Permutation_map. exact Hp.
Defined.

(** The later of the two sample submissions comes first. *)
Example get_all_assessments_sample :
  get_all_assessments sample_db
  = Ok (map Assessment.model_dump (rev sample_records))
  /\ map Assessment.id (rev sample_records) = ["id-2"; "id-1"].
Proof. split; reflexivity. Qed.


(** ** Export *)

Lemma get_renders (d : doc) (key : string) :
  renders d key (Openpyxl.stored (get d key (VStr ""))).
Proof. unfold renders, get. destruct (d !! key) as [[]|]; reflexivity. Qed.

Lemma append_headers : Openpyxl.append headers = Ok headers.
Proof. reflexivity. Qed.

(** The row handed to the sheet for a document whose timestamp is an ISO
    string or a [datetime]. *)
Lemma export_row_readable (d : doc) (t : datetime) :
  timestamp_of d = Some t ->
  export_row d
  = Openpyxl.append (VStr (Datetime.strftime t) :: field_values d).
Proof.
  unfold timestamp_of, export_row, get. intros Ht.
  destruct (d !! "timestamp") as [[| | | |s|t'| |]|]; try discriminate.
  - rewrite Ht. reflexivity.
  - injection Ht as ->. reflexivity.
Qed.

Lemma export_row_length (d : doc) (row : list pyval) :
  export_row d = Ok row -> length row = 8%nat.
Proof.
  unfold export_row.
  destruct (match get d "timestamp" (VStr "") with
            | VStr s => _ | VDatetime t => _ | _ => _ end) as [ts|];
    [|discriminate].
  intros H. exact (OpenpyxlFacts.append_length (ts :: field_values d) row H).
Qed.

Lemma export_row_ok (d : doc) (t : datetime) :
  timestamp_of d = Some t ->
  Forall (fun v => Openpyxl.writable v = true) (field_values d) ->
  exists row,
    export_row d = Ok row /\ exported_row d row
    /\ forallb Openpyxl.timezone_free row = true.
Proof.
  intros Ht Hw. rewrite (export_row_readable d t Ht).
  destruct (OpenpyxlFacts.writable_strftime t) as [Hwt Hst].
  assert (Hall : Forall (fun v => Openpyxl.writable v = true)
                   (VStr (Datetime.strftime t) :: field_values d))
    by (constructor; assumption).
  destruct (OpenpyxlFacts.append_writable _ Hall) as [Ha Htz].
  rewrite Ha. eexists. split; [reflexivity|]. split; [|exact Htz].
  cbn [map]. rewrite Hst. unfold field_values. cbn [map].
  exists t. do 7 eexists. split; [exact Ht|]. split; [reflexivity|].
  split; [apply DatetimeFacts.strftime_pattern|].
  repeat split; apply get_renders.
Qed.

Lemma for_each_export_row (l : list doc) :
  Forall exportable l ->
  exists rows,
    for_each export_row l = Ok rows /\ Forall2 exported_row l rows
    /\ forallb (forallb Openpyxl.timezone_free) rows = true.
Proof.
  induction 1 as [|d l [[t Ht] Hw] _ (rows & Hrows & Hall & Htz)].
  - exists []. split; [reflexivity|]. split; [constructor|reflexivity].
  - destruct (export_row_ok d t Ht Hw) as (row & Hrow & Hex & Hrtz).
    exists (row :: rows). simpl. rewrite Hrow. simpl. rewrite Hrows.
    split; [reflexivity|]. split; [constructor; assumption|].
    rewrite Hrtz, Htz. reflexivity.
Qed.

(** The export of a database whose fetched documents can all be shown. *)
Lemma export_assessments_ok (db : Mongo.database) :
  Forall exportable (fetch_assessments db) ->
  exists rows,
    export_assessments db = Ok (headers :: rows)
    /\ Forall2 exported_row (fetch_assessments db) rows
    /\ length rows = Nat.min (Z.to_nat 10000) (length (Mongo.assessments db)).
Proof.
  intros H. destruct (for_each_export_row _ H) as (rows & Hrows & Hall & Htz).
  exists rows. unfold export_assessments. rewrite append_headers. cbn.
  rewrite Hrows. cbn. unfold Openpyxl.save.
  change (forallb (forallb Openpyxl.timezone_free) (headers :: rows))
    with (forallb (forallb Openpyxl.timezone_free) rows).
  rewrite Htz.
  split; [reflexivity|]. split; [exact Hall|].
  rewrite <- (Forall2_length _ _ _ Hall). apply fetch_assessments_length.
Qed.

(** Whatever table the export returns has the header row and rows of
    eight cells, one per fetched document. *)
Lemma export_assessments_shape (db : Mongo.database) (table : list (list pyval)) :
  export_assessments db = Ok table ->
  exists rows,
    table = headers :: rows
    /\ for_each export_row (fetch_assessments db) = Ok rows
    /\ length rows = length (fetch_assessments db)
    /\ Forall (fun row => length row = 8%nat) rows.
Proof.
  unfold export_assessments. rewrite append_headers. cbn.
  generalize (fetch_assessments db). intros l.
  destruct (for_each export_row l) as [rows|] eqn:E; [|discriminate]. cbn.
  unfold Openpyxl.save. destruct (forallb _ _); [|discriminate].
  intros [= <-]. exists rows. split; [reflexivity|]. split; [reflexivity|].
  revert rows E. induction l as [|d l IH]; intros rows.
  - intros [= <-]. split; [reflexivity|constructor].
  - cbn [for_each]. destruct (export_row d) as [row|] eqn:Ed; [|discriminate].
    cbn. destruct (for_each export_row l) as [rows'|]; [|discriminate].
    cbn. intros [= <-]. destruct (IH rows' eq_refl) as [Hlen Hall].
    split; [cbn; f_equal; exact Hlen|].
    constructor; [exact (export_row_length d row Ed)|exact Hall].
Qed.

(** C5, as the code has it. [export_assessments] reads the first 10000
    assessments in descending order of timestamp; when each of them has a
    timestamp that is an ISO string or a [datetime] and field values the
    sheet takes (no control character among the first 32767 characters of
    a string, no list, no object, no [datetime] with a [tzinfo]), the
    table is the header row followed by one row per such document, in that
    order, with the columns timestamp (formatted with
    [%Y-%m-%d %H:%M:%S], which is [YYYY-MM-DD HH:MM:SS] from the year 1000
    on), name, age, gender, date, mobile, score, result; a cell holds the
    stored value of its field, the score and result included (of a string
    its first 32767 characters), and the empty string when the document
    lacks the field. *)
Theorem export_assessments_spec (db : Mongo.database) :
  Forall exportable (fetch_assessments db) ->
  exists rows,
    export_assessments db = Ok (headers :: rows)
    /\ headers = [VStr "Date Submitted"; VStr "Name"; VStr "Age"; VStr "Gender";
                  VStr "Date"; VStr "Mobile"; VStr "Score"; VStr "Result"]
    /\ Forall2 exported_row (fetch_assessments db) rows
    /\ length rows = Nat.min (Z.to_nat 10000) (length (Mongo.assessments db))
    /\ (exists sorted,
          Permutation sorted (Mongo.assessments db)
          /\ Sorted (Mongo.desc "timestamp") sorted
          /\ fetch_assessments db = take (Z.to_nat 10000) sorted)
    /\ (Z.of_nat (length (Mongo.assessments db)) <= 10000 ->
        length (headers :: rows) = S (length (Mongo.assessments db))).
Proof.
  intros H. destruct (export_assessments_ok db H) as (rows & Hex & Hall & Hlen).
  exists rows. split; [exact Hex|]. split; [reflexivity|].
  split; [exact Hall|]. split; [exact Hlen|]. split.
  - exists (Mongo.sort_desc "timestamp" (Mongo.assessments db)).
    split; [apply MongoFacts.sort_desc_perm|].
    split; [apply MongoFacts.sort_desc_sorted|reflexivity].
  - intros Hle. simpl. rewrite Hlen. lia.
Qed.

Lemma exportable_sample_db : Forall exportable (fetch_assessments sample_db).
Proof.
  repeat constructor; try (eexists; reflexivity).
Qed.

Lemma export_assessments_spec_witness :
  Forall exportable (fetch_assessments sample_db)
  /\ exists rows,
       export_assessments sample_db = Ok (headers :: rows)
       /\ Forall2 exported_row (fetch_assessments sample_db) rows
       /\ length rows = 2%nat.
Proof.
  split; [exact exportable_sample_db|].
  destruct (export_assessments_spec sample_db exportable_sample_db)
    as (rows & Hex & _ & Hall & Hlen & _).
  exists rows. split; [exact Hex|]. split; [exact Hall|exact Hlen].
Defined.

(** The table of the two sample submissions. *)
Example export_assessments_sample :
  export_assessments sample_db
  = Ok [headers;
        [VStr "2025-01-15 09:30:06"; VStr "Test User"; VStr "18 yrs above";
         VStr "Male"; VStr "2025-01-15"; VStr "9876543210"; VInt 30;
         VStr "Ama slightly present"];
        [VStr "2025-01-15 09:30:05"; VStr "Test User"; VStr "18 yrs above";
         VStr "Male"; VStr "2025-01-15"; VStr "9876543210"; VInt 30;
         VStr "Ama slightly present"]].
Proof. reflexivity. Qed.

Lemma reachable_control_db : reachable control_db.
Proof.
  unfold control_db. apply reachable_assessment; [split; reflexivity|].
  apply reachable_empty.
Qed.

(** C5 does not hold as stated. With 10001 stored assessments the table
    has 10000 data rows, one fewer than the records. A stored document
    without a [timestamp] makes the export raise [ValueError] (answered
    500) where an empty cell was promised: [get('timestamp', '')] hands the
    empty string to [fromisoformat]. A record the service itself stored
    for a name that starts with the control character U+0001 makes
    [ws.append] raise [IllegalCharacterError] (500), so there is no table.
    And a timestamp of the year 999 is shown as [999-01-02 03:04:05], which
    is not of the shape [YYYY-MM-DD HH:MM:SS]. *)
Lemma export_assessments_counterexample :
  (exists rows,
     export_assessments crowded_db = Ok (headers :: rows)
     /\ Z.of_nat (length (Mongo.assessments crowded_db)) = 10001
     /\ Z.of_nat (length rows) = 10000)
  /\ (bare_db = Mongo.mk [∅] [] 1
      /\ export_assessments bare_db = Raise ValueError
      /\ status (export_assessments bare_db) = 500)
  /\ (reachable control_db
      /\ length (Mongo.assessments control_db) = 1%nat
      /\ export_assessments control_db = Raise IllegalCharacterError
      /\ status (export_assessments control_db) = 500)
  /\ (exists row,
        export_assessments early_db = Ok [headers; row]
        /\ nth 0 row VNone = VStr "999-01-02 03:04:05"
        /\ Datetime.is_timestamp_pattern "999-01-02 03:04:05" = false).
Proof.
  split; [|split; [repeat split|split]].
  - assert (H : Forall exportable (fetch_assessments crowded_db)).
    { unfold fetch_assessments, Mongo.to_list. apply Forall_take.
      eapply Permutation_Forall;
        [apply Permutation_sym, MongoFacts.sort_desc_perm|].
      apply Forall_replicate. split; [eexists; reflexivity|].
      repeat constructor. }
    destruct (export_assessments_ok crowded_db H) as (rows & Hex & _ & Hlen).
    exists rows. split; [exact Hex|].
    rewrite Hlen. unfold crowded_db. cbn [Mongo.assessments].
    rewrite length_replicate. lia.
  - split; [exact reachable_control_db|]. repeat split.
  - eexists. repeat split.
Qed.

(** * Further properties of the code *)

(** ** Scoring *)

Lemma total_foldr (answers : list Answer.t) :
  (calculate_score_and_result answers).1
  = foldr Z.add 0 (map Answer.value answers).
Proof. unfold calculate_score_and_result. simpl. apply sum_foldr. Qed.

Lemma foldr_add_permutation (l1 l2 : list Z) :
  Permutation l1 l2 -> foldr Z.add 0 l1 = foldr Z.add 0 l2.
Proof. induction 1; simpl; lia. Qed.

(** The result as a function of the total. *)
Lemma result_of_total (answers : list Answer.t) :
  severity (calculate_score_and_result answers).2
  = if (calculate_score_and_result answers).1 <=? 28 then 0
    else if (calculate_score_and_result answers).1 <=? 42 then 1 else 2.
Proof.
  unfold calculate_score_and_result. simpl.
  destruct (_ <=? 28); [reflexivity|]. destruct (_ <=? 42); reflexivity.
Qed.

(** X1. The order of the answers does not matter: two submissions whose
    answers are rearrangements of one another get the same total and the
    same result. *)
Theorem calculate_score_and_result_permutation
    (answers1 answers2 : list Answer.t) :
  Permutation answers1 answers2 ->
  calculate_score_and_result answers1 = calculate_score_and_result answers2.
Proof.
  intros Hp. unfold calculate_score_and_result. rewrite !sum_foldr.
  rewrite (foldr_add_permutation (map Answer.value answers1)
             (map Answer.value answers2)); [reflexivity|].
  apply Permutation_map. exact Hp.
Qed.

Lemma calculate_score_and_result_permutation_witness :
  Permutation [Answer.mk 1 5; Answer.mk 2 1] [Answer.mk 2 1; Answer.mk 1 5]
  /\ calculate_score_and_result [Answer.mk 1 5; Answer.mk 2 1]
     = calculate_score_and_result [Answer.mk 2 1; Answer.mk 1 5].
Proof.
  split; [apply perm_swap|].
  exact (calculate_score_and_result_permutation _ _ (perm_swap _ _ [])).
Defined.

(** X2. When every answer value lies between [lo] and [hi], the total lies
    between [lo] and [hi] times the number of answers: 14 to 70 for the 14
    questions answered on the scale 1 to 5. *)
Theorem calculate_score_and_result_bounds
    (answers : list Answer.t) (lo hi : Z) :
  Forall (fun a => lo <= Answer.value a <= hi) answers ->
  lo * Z.of_nat (length answers) <= (calculate_score_and_result answers).1
  /\ (calculate_score_and_result answers).1 <= hi * Z.of_nat (length answers).
Proof.
  intros H. rewrite total_foldr.
  induction H as [|a l Ha _ IH]; simpl length; simpl foldr; [lia|].
  rewrite Nat2Z.inj_succ. simpl. lia.
Qed.

Lemma calculate_score_and_result_bounds_witness :
  Forall (fun a => 1 <= Answer.value a <= 5) sample_answers
  /\ 1 * Z.of_nat (length sample_answers)
     <= (calculate_score_and_result sample_answers).1
  /\ (calculate_score_and_result sample_answers).1
     <= 5 * Z.of_nat (length sample_answers).
Proof.
  assert (H : Forall (fun a => 1 <= Answer.value a <= 5) sample_answers).
  { repeat constructor; discriminate. }
  split; [exact H|].
  exact (calculate_score_and_result_bounds sample_answers 1 5 H).
Defined.

(** X3. Raising answer values never lowers the outcome: if each answer of
    a second submission is at least the corresponding answer of the first,
    its total is at least as large and its result at least as severe. *)
Theorem calculate_score_and_result_monotone
    (answers1 answers2 : list Answer.t) :
  Forall2 (fun a b => Answer.value a <= Answer.value b) answers1 answers2 ->
  (calculate_score_and_result answers1).1 <= (calculate_score_and_result answers2).1
  /\ severity (calculate_score_and_result answers1).2
     <= severity (calculate_score_and_result answers2).2.
Proof.
  intros H.
  assert (Ht : (calculate_score_and_result answers1).1
               <= (calculate_score_and_result answers2).1).
  { rewrite !total_foldr. induction H; simpl; lia. }
  split; [exact Ht|]. rewrite !result_of_total.
  destruct (Z.leb_spec (calculate_score_and_result answers1).1 28),
    (Z.leb_spec (calculate_score_and_result answers2).1 28),
    (Z.leb_spec (calculate_score_and_result answers1).1 42),
    (Z.leb_spec (calculate_score_and_result answers2).1 42); lia.
Qed.

Lemma calculate_score_and_result_monotone_witness :
  Forall2 (fun a b => Answer.value a <= Answer.value b)
    (replicate 14 (Answer.mk 1 2)) (replicate 14 (Answer.mk 1 4))
  /\ severity (calculate_score_and_result (replicate 14 (Answer.mk 1 2))).2
     <= severity (calculate_score_and_result (replicate 14 (Answer.mk 1 4))).2.
Proof.
  assert (H : Forall2 (fun a b => Answer.value a <= Answer.value b)
                (replicate 14 (Answer.mk 1 2)) (replicate 14 (Answer.mk 1 4))).
  { repeat constructor; discriminate. }
  split; [exact H|].
  exact (proj2 (calculate_score_and_result_monotone _ _ H)).
Defined.

(** ** Validation *)

Lemma required_insert_ne {A} (validate : pyval -> option A) (d : doc)
    (key k : string) (v : pyval) :
  key <> k -> required validate (<[key := v]> d) k = required validate d k.
Proof. intros Hne. unfold required. rewrite lookup_insert_ne by exact Hne. reflexivity. Qed.

(** X4. A field that the submission model does not declare is ignored:
    adding it to a payload, whatever its value, changes neither the answer
    of [POST /assessments] nor the resulting database. *)
Theorem post_assessments_extra_field
    (validate_str : pyval -> option string) (validate_int : pyval -> option Z)
    (uuid4 : string) (now : datetime) (d : doc) (key : string) (v : pyval)
    (db : Mongo.database) :
  (key ∉ ["name"; "age"; "gender"; "date"; "mobile"; "answers"]) ->
  post_assessments validate_str validate_int uuid4 now (VDict (<[key := v]> d)) db
  = post_assessments validate_str validate_int uuid4 now (VDict d) db.
Proof.
  intros Hk. unfold post_assessments, validate_AssessmentSubmission.
  rewrite !required_insert_ne; [reflexivity|..];
    intros ->; apply Hk; set_solver.
Qed.

Lemma post_assessments_extra_field_witness :
  ("id" ∉ ["name"; "age"; "gender"; "date"; "mobile"; "answers"])
  /\ post_assessments strict_str strict_int "id-1" sample_now
       (VDict (<["id" := VStr "chosen-by-the-client"]> empty_answers_doc))
       Mongo.empty
     = post_assessments strict_str strict_int "id-1" sample_now
         (VDict empty_answers_doc) Mongo.empty.
Proof.
  assert (H : "id" ∉ ["name"; "age"; "gender"; "date"; "mobile"; "answers"]).
  { intros Hin. apply list_elem_of_In in Hin. simpl in Hin.
    repeat (destruct Hin as [Hin|Hin]; [discriminate Hin|]). exact Hin. }
  split; [exact H|].
  exact (post_assessments_extra_field strict_str strict_int "id-1" sample_now
           empty_answers_doc "id" (VStr "chosen-by-the-client") Mongo.empty H).
Defined.

(** X5. The same for contact requests: a field other than [name],
    [mobile], [email] and [message] is ignored. *)
Theorem post_contact_requests_extra_field
    (validate_str : pyval -> option string)
    (uuid4 : string) (now : datetime) (d : doc) (key : string) (v : pyval)
    (db : Mongo.database) :
  (key ∉ ["name"; "mobile"; "email"; "message"]) ->
  post_contact_requests validate_str uuid4 now (VDict (<[key := v]> d)) db
  = post_contact_requests validate_str uuid4 now (VDict d) db.
Proof.
  intros Hk. unfold post_contact_requests, validate_ContactRequestCreate.
  assert (He : optional_str validate_str (<[key := v]> d) "email"
               = optional_str validate_str d "email").
  { unfold optional_str. rewrite lookup_insert_ne; [reflexivity|].
    intros ->. apply Hk. set_solver. }
  rewrite He. rewrite !required_insert_ne; [reflexivity|..];
    intros ->; apply Hk; set_solver.
Qed.

Lemma post_contact_requests_extra_field_witness :
  ("score" ∉ ["name"; "mobile"; "email"; "message"])
  /\ post_contact_requests strict_str "id-3" sample_now
       (VDict (<["score" := VInt 99]> ∅)) Mongo.empty
     = post_contact_requests strict_str "id-3" sample_now (VDict ∅) Mongo.empty.
Proof.
  assert (H : "score" ∉ ["name"; "mobile"; "email"; "message"]).
  { intros Hin. apply list_elem_of_In in Hin. simpl in Hin.
    repeat (destruct Hin as [Hin|Hin]; [discriminate Hin|]). exact Hin. }
  split; [exact H|].
  exact (post_contact_requests_extra_field strict_str "id-3" sample_now
           ∅ "score" (VInt 99) Mongo.empty H).
Defined.



(** X8. Validation keeps the answers as they come: the record holds one
    answer per item of the payload's list, in the same order, repeated
    question ids included; its score is the sum over all of them. *)
Theorem post_assessments_answers_kept
    (validate_str : pyval -> option string) (validate_int : pyval -> option Z)
    (uuid4 : string) (now : datetime) (d : doc) (items : list pyval)
    (db db' : Mongo.database) (assessment : Assessment.t) :
  d !! "answers" = Some (VList items) ->
  post_assessments validate_str validate_int uuid4 now (VDict d) db
  = (Ok assessment, db') ->
  Forall2 (fun item answer => validate_Answer validate_int item = Some answer)
    items (Assessment.answers assessment)
  /\ length (Assessment.answers assessment) = length items
  /\ Assessment.score assessment
     = foldr Z.add 0 (map Answer.value (Assessment.answers assessment)).
Proof.
  intros Hitems. unfold post_assessments.
  destruct (validate_AssessmentSubmission validate_str validate_int (VDict d))
    as [submission|] eqn:E; [|discriminate].
  intros H. apply create_assessment_Ok in H. destruct H as (_ & -> & _).
  cbn [Assessment.answers Assessment.score].
  assert (Ha : mapM (validate_Answer validate_int) items
               = Some (AssessmentSubmission.answers submission)).
  { simpl in E.
    repeat match type of E with
           | (required ?f ?d ?k ≫= _) = _ =>
               destruct (required f d k) eqn:?; simpl in E; [|discriminate]
           end.
    injection E as <-. simpl.
    match goal with
    | H : required (validate_answers _) d "answers" = Some _ |- _ =>
        unfold required in H; rewrite Hitems in H; exact H
    end. }
  apply mapM_Some in Ha. split; [exact Ha|]. split.
  - symmetry. eapply Forall2_length. exact Ha.
  - apply total_foldr.
Qed.

Lemma post_assessments_answers_kept_witness :
  repeated_answers_doc !! "answers"
  = Some (VList (map Answer.model_dump
                   [Answer.mk 7 3; Answer.mk 2 5; Answer.mk 7 1]))
  /\ exists assessment db',
       post_assessments strict_str strict_int "id-4" sample_now
         (VDict repeated_answers_doc) Mongo.empty = (Ok assessment, db')
       /\ Assessment.answers assessment
          = [Answer.mk 7 3; Answer.mk 2 5; Answer.mk 7 1]
       /\ Forall2 (fun item answer => validate_Answer strict_int item = Some answer)
            (map Answer.model_dump [Answer.mk 7 3; Answer.mk 2 5; Answer.mk 7 1])
            (Assessment.answers assessment)
       /\ length (Assessment.answers assessment) = 3%nat
       /\ Assessment.score assessment = 9.
Proof.
  assert (H1 : repeated_answers_doc !! "answers"
               = Some (VList (map Answer.model_dump
                                [Answer.mk 7 3; Answer.mk 2 5; Answer.mk 7 1])))
    by reflexivity.
  split; [exact H1|].
  eexists. eexists. split; [reflexivity|]. split; [reflexivity|].
  destruct (post_assessments_answers_kept strict_str strict_int "id-4"
              sample_now repeated_answers_doc _ Mongo.empty _ _ H1 eq_refl)
    as (Hall & Hlen & Hscore).
  split; [exact Hall|]. split; [exact Hlen|exact Hscore].
Defined.

(** X9. Leaving [email] out and sending it as null are the same request;
    the record then has no email and its stored document holds a null
    [email] field. *)
Theorem post_contact_requests_without_email
    (validate_str : pyval -> option string)
    (uuid4 : string) (now : datetime) (d : doc)
    (db db' : Mongo.database) (contact_req : ContactRequest.t) :
  d !! "email" = None ->
  post_contact_requests validate_str uuid4 now (VDict d) db = (Ok contact_req, db') ->
  post_contact_requests validate_str uuid4 now
    (VDict (<["email" := VNone]> d)) db = (Ok contact_req, db')
  /\ ContactRequest.email contact_req = None
  /\ exists stored,
       last (Mongo.contact_requests db') = Some stored
       /\ stored !! "email" = Some VNone.
Proof.
  intros He. unfold post_contact_requests, validate_ContactRequestCreate.
  assert (Ho : optional_str validate_str (<["email" := VNone]> d) "email"
               = optional_str validate_str d "email").
  { unfold optional_str. rewrite lookup_insert_eq, He. reflexivity. }
  rewrite Ho, !required_insert_ne by discriminate.
  assert (Hn : optional_str validate_str d "email" = Some None)
    by (unfold optional_str; rewrite He; reflexivity).
  rewrite Hn.
  destruct (required validate_str d "name") as [name|];
    cbn -[create_contact_request]; [|discriminate].
  destruct (required validate_str d "mobile") as [mobile|];
    cbn -[create_contact_request]; [|discriminate].
  destruct (required validate_str d "message") as [message|];
    cbn -[create_contact_request]; [|discriminate].
  rewrite (proj2 (create_contact_request_eq _ _ _ _)). cbv zeta.
  intros H. injection H as <- <-.
  split; [reflexivity|]. split; [reflexivity|].
  eexists. split; [apply last_snoc|reflexivity].
Qed.

Lemma post_contact_requests_without_email_witness :
  (list_to_map [("name", VStr "Test"); ("mobile", VStr "98");
                ("message", VStr "call me")] : doc) !! "email" = None
  /\ exists stored,
       last (Mongo.contact_requests
               (post_contact_requests strict_str "id-3" sample_now
                  (VDict (list_to_map [("name", VStr "Test"); ("mobile", VStr "98");
                                       ("message", VStr "call me")]))
                  Mongo.empty).2) = Some stored
       /\ stored !! "email" = Some VNone.
Proof.
  assert (H1 : (list_to_map [("name", VStr "Test"); ("mobile", VStr "98");
                             ("message", VStr "call me")] : doc) !! "email" = None)
    by reflexivity.
  split; [exact H1|].
  exact (proj2 (proj2 (post_contact_requests_without_email strict_str "id-3"
                         sample_now _ Mongo.empty _ _ H1 eq_refl))).
Defined.

(** ** Listing and export on any database *)

Lemma restore_timestamp_cases (d : doc) :
  (unreadable_timestamp d
   /\ (restore_timestamp d = Raise (KeyError "timestamp")
       \/ restore_timestamp d = Raise ValueError))
  \/ (~ unreadable_timestamp d
      /\ exists d',
           restore_timestamp d = Ok d'
           /\ (forall k, k <> "timestamp" -> d' !! k = d !! k)
           /\ (forall s, d' !! "timestamp" <> Some (VStr s))
           /\ export_row d = Openpyxl.append (row_of_listed d')).
Proof.
  unfold restore_timestamp, export_row, row_of_listed, unreadable_timestamp, get.
  destruct (d !! "timestamp") as [v|] eqn:E.
  - destruct v as [| | | |s| | |];
      try (right; split; [intros [H|(s' & H & _)]; discriminate H|];
           exists d; rewrite E;
           split; [reflexivity|]; split; [reflexivity|];
           split; [intros s'; discriminate|reflexivity]).
    destruct (Datetime.fromisoformat s) as [t|] eqn:Ep.
    + right. split.
      * intros [H|(s' & H & Hn)]; [discriminate H|]. injection H as <-. congruence.
      * eexists. split; [reflexivity|]. split.
        { intros k Hk. apply lookup_insert_ne. congruence. }
        split.
        { intros s'. rewrite lookup_insert_eq. discriminate. }
        rewrite lookup_insert_eq.
        rewrite !lookup_insert_ne by discriminate. reflexivity.
    + left. split; [right; eauto|]. right. reflexivity.
  - left. split; [left; reflexivity|]. left. reflexivity.
Qed.

Lemma export_row_unreadable (d : doc) :
  unreadable_timestamp d -> export_row d = Raise ValueError.
Proof.
  unfold export_row, get. intros [E|(s & E & Hs)]; rewrite E.
  - reflexivity.
  - rewrite Hs. reflexivity.
Qed.

Lemma for_each_restore_cases (l : list doc) :
  (Exists unreadable_timestamp l
   /\ (for_each restore_timestamp l = Raise (KeyError "timestamp")
       \/ for_each restore_timestamp l = Raise ValueError))
  \/ (Forall (fun d => ~ unreadable_timestamp d) l
      /\ exists out,
           for_each restore_timestamp l = Ok out
           /\ Forall2 (fun d d' => forall k, k <> "timestamp" -> d' !! k = d !! k)
                l out
           /\ Forall (fun d' => forall s, d' !! "timestamp" <> Some (VStr s)) out).
Proof.
  induction l as [|d l IH].
  - right. split; [constructor|]. exists []. repeat split; constructor.
  - simpl. destruct (restore_timestamp_cases d)
      as [(Hbad & Hr)|(Hok & d' & Hr & Hsame & Hnostr & _)].
    + left. split; [left; exact Hbad|].
      destruct Hr as [-> | ->]; [left|right]; reflexivity.
    + rewrite Hr. simpl.
      destruct IH as [(Hbad & Hr')|(Hall & out & Hr' & Hsame' & Hnostr')].
      * left. split; [right; exact Hbad|].
        destruct Hr' as [-> | ->]; [left|right]; reflexivity.
      * right. split; [constructor; assumption|].
        exists (d' :: out). rewrite Hr'. simpl.
        split; [reflexivity|]. split; constructor; assumption.
Qed.

(** The rows the export hands to the sheet are the rows of the listed
    documents. *)
Lemma for_each_export_listed (l out : list doc) :
  for_each restore_timestamp l = Ok out ->
  for_each export_row l = for_each Openpyxl.append (map row_of_listed out).
Proof.
  revert out. induction l as [|d l IH]; intros out.
  - intros [= <-]. reflexivity.
  - cbn [for_each].
    destruct (restore_timestamp_cases d)
      as [(_ & [Hr|Hr])|(_ & d' & Hr & _ & _ & Hex)]; rewrite Hr;
      try discriminate.
    cbn. destruct (for_each restore_timestamp l) as [out'|]; [|discriminate].
    cbn. intros [= <-]. cbn [map for_each].
    rewrite Hex, (IH out' eq_refl). reflexivity.
Qed.

(** X10. [get_all_assessments] on any database: it fails exactly when one
    of the (at most 10000) fetched documents has no [timestamp] (KeyError)
    or a [timestamp] string that does not parse (ValueError), both answered
    500; otherwise it returns one document per fetched document, in the
    same order, equal to it on every field but [timestamp], which is never
    left a string. *)
Theorem get_all_assessments_cases (db : Mongo.database) :
  (Exists unreadable_timestamp (fetch_assessments db)
   /\ (get_all_assessments db = Raise (KeyError "timestamp")
       \/ get_all_assessments db = Raise ValueError)
   /\ status (get_all_assessments db) = 500)
  \/ (Forall (fun d => ~ unreadable_timestamp d) (fetch_assessments db)
      /\ exists out,
           get_all_assessments db = Ok out
           /\ Forall2 (fun d d' => forall k, k <> "timestamp" -> d' !! k = d !! k)
                (fetch_assessments db) out
           /\ Forall (fun d' => forall s, d' !! "timestamp" <> Some (VStr s)) out
           /\ Z.of_nat (length out) <= 10000).
Proof.
  unfold get_all_assessments.
  destruct (for_each_restore_cases (fetch_assessments db))
    as [(Hbad & Hr)|(Hall & out & Hr & Hsame & Hnostr)].
  - left. split; [exact Hbad|]. split; [exact Hr|].
    destruct Hr as [-> | ->]; reflexivity.
  - right. split; [exact Hall|]. exists out. split; [exact Hr|].
    split; [exact Hsame|]. split; [exact Hnostr|].
    rewrite <- (Forall2_length _ _ _ Hsame), fetch_assessments_length. lia.
Qed.

Lemma writable_dec (l : list pyval) :
  Forall (fun v => Openpyxl.writable v = true) l
  \/ Exists (fun v => Openpyxl.writable v = false) l.
Proof.
  induction l as [|v l [IH|IH]].
  - left. constructor.
  - destruct (Openpyxl.writable v) eqn:E.
    + left. constructor; assumption.
    + right. left. exact E.
  - right. right. exact IH.
Qed.

Lemma writable_not_both (l : list pyval) :
  Forall (fun v => Openpyxl.writable v = true) l ->
  ~ Exists (fun v => Openpyxl.writable v = false) l.
Proof.
  intros Hall Hex. apply Exists_exists in Hex. destruct Hex as (v & Hin & Hv).
  rewrite Forall_forall in Hall. rewrite (Hall v Hin) in Hv. discriminate.
Qed.

(** The first cell of the row of a document with a readable timestamp:
    the sheet refuses it only when the stored timestamp is a list or an
    object. *)
Lemma export_row_first_cell (d : doc) :
  ~ unreadable_timestamp d ->
  exists c0,
    export_row d = Openpyxl.append (c0 :: field_values d)
    /\ (Openpyxl.writable c0 = false
        <-> exists v, d !! "timestamp" = Some v
                      /\ match v with VList _ | VDict _ => True | _ => False end).
Proof.
  intros Hread.
  destruct (d !! "timestamp") as [v|] eqn:E;
    [|exfalso; apply Hread; left; exact E].
  assert (Hts : forall t, timestamp_of d = Some t ->
            exists c0,
              export_row d = Openpyxl.append (c0 :: field_values d)
              /\ (Openpyxl.writable c0 = false
                  <-> exists v', Some v = Some v'
                        /\ match v' with VList _ | VDict _ => True | _ => False end)
              /\ match v with VStr _ | VDatetime _ => True | _ => False end).
  { intros t Ht. exists (VStr (Datetime.strftime t)).
    split; [apply export_row_readable; exact Ht|].
    unfold timestamp_of in Ht. rewrite E in Ht.
    rewrite (proj1 (OpenpyxlFacts.writable_strftime t)).
    destruct v; try discriminate; (split; [|exact I]); (split; [discriminate|]);
      intros (v' & [= <-] & []). }
  destruct v as [|b|z|m e|s|t|l|m];
    try (eexists; split;
         [unfold export_row, get; rewrite E; reflexivity|];
         split; [discriminate|intros (v' & [= <-] & [])]);
    try (eexists; split;
         [unfold export_row, get; rewrite E; reflexivity|];
         split; [intros _; eexists; split; [reflexivity|exact I]|reflexivity]).
  - destruct (Datetime.fromisoformat s) as [t|] eqn:Ep.
    + destruct (Hts t) as (c0 & H1 & H2 & _);
        [unfold timestamp_of; rewrite E; exact Ep|].
      exists c0. split; assumption.
    + exfalso. apply Hread. right. exists s. split; [exact E|exact Ep].
  - destruct (Hts t) as (c0 & H1 & H2 & _);
      [unfold timestamp_of; rewrite E; reflexivity|].
    exists c0. split; assumption.
Qed.

Lemma export_row_cases (d : doc) :
  (unreadable_timestamp d /\ export_row d = Raise ValueError)
  \/ (~ unreadable_timestamp d /\ refused_cell d
      /\ ((exists e, export_row d = Raise e
                     /\ (e = IllegalCharacterError \/ e = ValueError))
          \/ (exists row, export_row d = Ok row
                          /\ forallb Openpyxl.timezone_free row = false)))
  \/ (~ unreadable_timestamp d /\ ~ refused_cell d
      /\ exists row, export_row d = Ok row
                     /\ forallb Openpyxl.timezone_free row = true).
Proof.
  destruct (restore_timestamp_cases d) as [(Hbad & _)|(Hread & _)].
  { left. split; [exact Hbad|]. apply export_row_unreadable. exact Hbad. }
  right. destruct (export_row_first_cell d Hread) as (c0 & Hrow & Hc0).
  rewrite Hrow. unfold refused_cell.
  destruct (Openpyxl.writable c0) eqn:Ec.
  - destruct (writable_dec (field_values d)) as [Hall|Hex].
    + right. split; [exact Hread|]. split.
      * intros [H|H]; [apply Hc0 in H; discriminate|].
        exact (writable_not_both _ Hall H).
      * assert (Hrowall : Forall (fun v => Openpyxl.writable v = true)
                            (c0 :: field_values d))
          by (constructor; assumption).
        destruct (OpenpyxlFacts.append_writable _ Hrowall) as [-> Htz].
        eexists. split; [reflexivity|exact Htz].
    + left. split; [exact Hread|]. split; [right; exact Hex|].
      apply OpenpyxlFacts.append_refused. right. exact Hex.
  - left. split; [exact Hread|]. split; [left; apply Hc0; reflexivity|].
    apply OpenpyxlFacts.append_refused. left. exact Ec.
Qed.

Lemma for_each_export_cases (l : list doc) :
  (Exists (fun d => unreadable_timestamp d \/ refused_cell d) l
   /\ ((exists e, for_each export_row l = Raise e
                  /\ (e = ValueError \/ e = IllegalCharacterError))
       \/ (exists rows, for_each export_row l = Ok rows
             /\ forallb (forallb Openpyxl.timezone_free) rows = false)))
  \/ (Forall (fun d => ~ unreadable_timestamp d /\ ~ refused_cell d) l
      /\ exists rows, for_each export_row l = Ok rows
           /\ forallb (forallb Openpyxl.timezone_free) rows = true).
Proof.
  induction l as [|d l IH].
  - right. split; [constructor|]. exists []. split; reflexivity.
  - cbn [for_each].
    destruct (export_row_cases d)
      as [(Hbad & ->)
         |[(Hread & Href & [(e & -> & He)|(row & -> & Htz)])
          |(Hread & Hgood & row & -> & Htz)]]; cbn.
    + left. split; [left; left; exact Hbad|]. left.
      eexists. split; [reflexivity|left; reflexivity].
    + left. split; [left; right; exact Href|]. left.
      exists e. split; [reflexivity|]. destruct He as [-> | ->]; auto.
    + left. split; [left; right; exact Href|].
      destruct (for_each export_row l) as [rows|e] eqn:E; cbn.
      * right. eexists. split; [reflexivity|]. cbn [forallb]. rewrite Htz.
        reflexivity.
      * left. exists e. split; [reflexivity|].
        destruct IH as [(_ & [(e' & [= <-] & He)|(rows & Hr & _)])
                       |(_ & rows & Hr & _)];
          [exact He|discriminate Hr|discriminate Hr].
    + destruct IH as [(Hex & [(e & -> & He)|(rows & -> & Hrtz)])
                     |(Hall & rows & -> & Hrtz)]; cbn.
      * left. split; [right; exact Hex|]. left.
        exists e. split; [reflexivity|exact He].
      * left. split; [right; exact Hex|]. right.
        eexists. split; [reflexivity|]. cbn [forallb]. rewrite Hrtz.
        apply andb_false_r.
      * right. split; [constructor; [split|]; assumption|].
        eexists. split; [reflexivity|]. cbn [forallb]. rewrite Htz, Hrtz.
        reflexivity.
Qed.

(** X11. [export_assessments] on any database: it fails, with ValueError,
    IllegalCharacterError or TypeError (500), exactly when one of the
    fetched documents has no [timestamp], a [timestamp] string that does
    not parse, or a value the sheet refuses (a string with a control
    character among its first 32767 characters, a list, an object, a
    [datetime] with a [tzinfo]); otherwise the table is the header row and
    one row of eight cells per fetched document. *)
Theorem export_assessments_cases (db : Mongo.database) :
  (Exists (fun d => unreadable_timestamp d \/ refused_cell d)
     (fetch_assessments db)
   /\ (exists e, export_assessments db = Raise e
                 /\ (e = ValueError \/ e = IllegalCharacterError \/ e = TypeError))
   /\ status (export_assessments db) = 500)
  \/ (Forall (fun d => ~ unreadable_timestamp d /\ ~ refused_cell d)
        (fetch_assessments db)
      /\ exists rows,
           export_assessments db = Ok (headers :: rows)
           /\ length rows = length (fetch_assessments db)
           /\ Forall (fun row => length row = 8%nat) rows).
Proof.
  destruct (for_each_export_cases (fetch_assessments db))
    as [(Hex & [(e & Hr & He)|(rows & Hr & Htz)])|(Hall & rows & Hr & Htz)].
  - left. split; [exact Hex|].
    unfold export_assessments. rewrite append_headers. cbn. rewrite Hr. cbn.
    split; [exists e; split; [reflexivity|tauto]|].
    destruct He as [-> | ->]; reflexivity.
  - left. split; [exact Hex|].
    unfold export_assessments. rewrite append_headers. cbn. rewrite Hr. cbn.
    unfold Openpyxl.save.
    change (forallb (forallb Openpyxl.timezone_free) (headers :: rows))
      with (forallb (forallb Openpyxl.timezone_free) rows).
    rewrite Htz. split; [exists TypeError; split; [reflexivity|tauto]|].
    reflexivity.
  - right. split; [exact Hall|].
    assert (Hx : export_assessments db = Ok (headers :: rows)).
    { unfold export_assessments. rewrite append_headers. cbn. rewrite Hr. cbn.
      unfold Openpyxl.save.
      change (forallb (forallb Openpyxl.timezone_free) (headers :: rows))
        with (forallb (forallb Openpyxl.timezone_free) rows).
      rewrite Htz. reflexivity. }
    exists rows. split; [exact Hx|].
    destruct (export_assessments_shape db _ Hx) as (rows' & [= <-] & _ & H1 & H2).
    split; assumption.
Qed.

Lemma for_each_append_writable (rows : list (list pyval)) :
  Forall (Forall (fun v => Openpyxl.writable v = true)) rows ->
  for_each Openpyxl.append rows = Ok (map (map Openpyxl.stored) rows)
  /\ forallb (forallb Openpyxl.timezone_free) (map (map Openpyxl.stored) rows)
     = true.
Proof.
  induction 1 as [|row rows Hrow _ [IH1 IH2]]; [split; reflexivity|].
  destruct (OpenpyxlFacts.append_writable row Hrow) as [Ha Htz].
  cbn [for_each map forallb]. rewrite Ha. cbn. rewrite IH1. cbn.
  rewrite Htz, IH2. split; reflexivity.
Qed.

(** X12. The export shows what the listing returns: whenever
    [get_all_assessments] succeeds, [export_assessments] is the workbook
    filled, below the header row, with the rows of the listed documents in
    the listing's order, each with its timestamp formatted and its seven
    fields (empty where missing); it fails only on a value the sheet
    refuses, and when the sheet takes every value the table holds these
    rows as the cells keep them. *)
Theorem export_assessments_of_listing (db : Mongo.database) (out : list doc) :
  get_all_assessments db = Ok out ->
  export_assessments db = Openpyxl.workbook (headers :: map row_of_listed out)
  /\ (Forall (Forall (fun v => Openpyxl.writable v = true))
        (map row_of_listed out) ->
      export_assessments db
      = Ok (headers :: map (map Openpyxl.stored) (map row_of_listed out))).
Proof.
  unfold get_all_assessments. intros H.
  assert (Hx : export_assessments db
               = Openpyxl.workbook (headers :: map row_of_listed out)).
  { unfold export_assessments, Openpyxl.workbook. cbn [for_each].
    rewrite (for_each_export_listed _ _ H), append_headers. cbn.
    destruct (for_each Openpyxl.append (map row_of_listed out)); reflexivity. }
  split; [exact Hx|]. intros Hw. rewrite Hx.
  unfold Openpyxl.workbook. cbn [for_each]. rewrite append_headers. cbn.
  destruct (for_each_append_writable _ Hw) as [-> Htz]. cbn.
  unfold Openpyxl.save.
  change (forallb (forallb Openpyxl.timezone_free)
            (headers :: map (map Openpyxl.stored) (map row_of_listed out)))
    with (forallb (forallb Openpyxl.timezone_free)
            (map (map Openpyxl.stored) (map row_of_listed out))).
  rewrite Htz. reflexivity.
Qed.

Lemma export_assessments_of_listing_witness :
  get_all_assessments sample_db
  = Ok (map Assessment.model_dump (rev sample_records))
  /\ export_assessments sample_db
     = Openpyxl.workbook
         (headers :: map row_of_listed
                       (map Assessment.model_dump (rev sample_records)))
  /\ export_assessments sample_db
     = Ok (headers :: map (map Openpyxl.stored)
                        (map row_of_listed
                           (map Assessment.model_dump (rev sample_records)))).
Proof.
  assert (H : get_all_assessments sample_db
              = Ok (map Assessment.model_dump (rev sample_records)))
    by reflexivity.
  split; [exact H|].
  destruct (export_assessments_of_listing sample_db _ H) as [H1 H2].
  split; [exact H1|]. apply H2. repeat constructor.
Defined.

(** ** Submissions and the listing *)

Lemma bson_compare_documents (a b : Assessment.t) :
  utc_instant (Assessment.timestamp a) -> utc_instant (Assessment.timestamp b) ->
  Mongo.bson_compare (Assessment.document a !! "timestamp")
    (Assessment.document b !! "timestamp")
  = Datetime.compare (Assessment.timestamp a) (Assessment.timestamp b).
Proof.
  intros [Hva Hza] [Hvb Hzb]. rewrite !document_timestamp.
  unfold Mongo.bson_compare. cbn [Mongo.bson_rank]. rewrite Z.compare_refl.
  apply DatetimeFacts.string_compare_isoformat; congruence.
Qed.

(** X13. The timestamps that [create_assessment] stores sort like the
    instants they stand for: the stored ISO strings of two UTC stamps
    compare, in the order MongoDB sorts strings by, as the two instants
    do, so [sort("timestamp", -1)] puts the later submission first. *)
Theorem stored_timestamps_order
    (uuid1 uuid2 : string) (now1 now2 : datetime)
    (submission1 submission2 : AssessmentSubmission.t)
    (db1 db2 db1' db2' : Mongo.database) (assessment1 assessment2 : Assessment.t) :
  utc_instant now1 -> utc_instant now2 ->
  create_assessment uuid1 now1 submission1 db1 = (Ok assessment1, db1') ->
  create_assessment uuid2 now2 submission2 db2 = (Ok assessment2, db2') ->
  exists d1 d2 : doc,
    last (Mongo.assessments db1') = Some d1
    /\ last (Mongo.assessments db2') = Some d2
    /\ Mongo.bson_compare (d1 !! "timestamp") (d2 !! "timestamp")
       = Datetime.compare now1 now2
    /\ (Mongo.desc "timestamp" d1 d2 <-> Datetime.leb now2 now1 = true).
Proof.
  intros H1 H2 Hc1 Hc2.
  apply create_assessment_Ok in Hc1. destruct Hc1 as (_ & -> & ->).
  apply create_assessment_Ok in Hc2. destruct Hc2 as (_ & -> & ->).
  cbn [Mongo.assessments].
  eexists. eexists. split; [apply last_snoc|]. split; [apply last_snoc|].
  split.
  - apply bson_compare_documents; assumption.
  - unfold Mongo.desc, Mongo.bson_leb.
    rewrite bson_compare_documents by assumption. reflexivity.
Qed.

Lemma stored_timestamps_order_witness :
  utc_instant sample_now /\ utc_instant sample_later
  /\ exists d1 d2 : doc,
       last (Mongo.assessments
               (create_assessment "id-1" sample_now sample_submission
                  Mongo.empty).2) = Some d1
       /\ last (Mongo.assessments
                  (create_assessment "id-2" sample_later sample_submission
                     Mongo.empty).2) = Some d2
       /\ Mongo.bson_compare (d1 !! "timestamp") (d2 !! "timestamp")
          = Datetime.compare sample_now sample_later.
Proof.
  assert (H1 : utc_instant sample_now) by (split; reflexivity).
  assert (H2 : utc_instant sample_later) by (split; reflexivity).
  split; [exact H1|]. split; [exact H2|].
  destruct (stored_timestamps_order "id-1" "id-2" sample_now sample_later
              sample_submission sample_submission Mongo.empty Mongo.empty
              _ _ _ _ H1 H2 eq_refl eq_refl)
    as (d1 & d2 & Hd1 & Hd2 & H & _).
  exists d1, d2. split; [exact Hd1|]. split; [exact Hd2|exact H].
Defined.

(** X14. A submitted assessment shows up in the listing: after
    [create_assessment] has returned a record on a database the service
    has brought about, the listing succeeds, holds one more record than
    were stored (capped at 10000), and while fewer than 10000 were stored
    it contains the dump of the record just returned. *)
Theorem create_assessment_listed
    (uuid4 : string) (now : datetime) (submission : AssessmentSubmission.t)
    (db db' : Mongo.database) (assessment : Assessment.t) :
  reachable db -> utc_instant now ->
  create_assessment uuid4 now submission db = (Ok assessment, db') ->
  exists out,
    get_all_assessments db' = Ok out
    /\ Z.of_nat (length out)
       = Z.min 10000 (Z.of_nat (length (Mongo.assessments db)) + 1)
    /\ (Z.of_nat (length (Mongo.assessments db)) < 10000 ->
        Assessment.model_dump assessment ∈ out).
Proof.
  intros Hreach Hnow Hc.
  destruct (reachable_documents db Hreach) as (records & Hdb & Hrec).
  apply create_assessment_Ok in Hc. destruct Hc as (_ & Ha & ->).
  assert (Hts : Assessment.timestamp assessment = now) by (rewrite Ha; reflexivity).
  clear Ha. set (a := assessment) in *.
  set (db' := Mongo.mk _ _ _).
  assert (Hdb' : Mongo.assessments db' = map Assessment.document (records ++ [a])).
  { unfold db'. simpl. rewrite map_app, Hdb. reflexivity. }
  assert (Hrec' : Forall (fun r => utc_instant (Assessment.timestamp r))
                    (records ++ [a])).
  { apply Forall_app. split; [exact Hrec|]. repeat constructor; rewrite Hts;
      apply Hnow. }
  destruct (get_all_assessments_documents db' _ Hdb' Hrec')
    as (sorted & Hp & _ & Hget & _ & _ & _ & Hall & _).
  pose proof (Permutation_length Hp) as Hlen. rewrite length_app in Hlen.
  simpl in Hlen.
  assert (Hn : length (Mongo.assessments db) = length records)
    by (rewrite Hdb; apply length_map).
  eexists. split; [exact Hget|]. split.
  - rewrite length_map, length_take. lia.
  - intros Hlt. rewrite Hall by (rewrite length_app; simpl; lia).
    apply list_elem_of_In, in_map.
    apply (Permutation_in _ (Permutation_sym Hp)).
    apply in_or_app. right. left. reflexivity.
Qed.

Lemma create_assessment_listed_witness :
  reachable Mongo.empty /\ utc_instant sample_now
  /\ exists assessment db' out,
       create_assessment "id-1" sample_now sample_submission Mongo.empty
       = (Ok assessment, db')
       /\ get_all_assessments db' = Ok out
       /\ Z.of_nat (length out) = 1
       /\ Assessment.model_dump assessment ∈ out.
Proof.
  assert (H2 : utc_instant sample_now) by (split; reflexivity).
  split; [apply reachable_empty|]. split; [exact H2|].
  destruct (create_assessment_listed "id-1" sample_now sample_submission
              Mongo.empty _ _ reachable_empty H2 eq_refl)
    as (out & Hget & Hlen & Hin).
  eexists. eexists. exists out. split; [reflexivity|].
  split; [exact Hget|]. split; [exact Hlen|]. apply Hin. simpl. lia.
Defined.

Lemma insert_desc_last (key : string) (x : doc) (l : list doc) :
  Forall (fun y => Mongo.bson_leb (y !! key) (x !! key) = false) l ->
  Mongo.insert_desc key x l = l ++ [x].
Proof.
  induction 1 as [|y l Hy _ IH]; simpl; [reflexivity|].
  rewrite Hy, IH. reflexivity.
Qed.

Lemma sort_desc_ascending (records : list Assessment.t) :
  Forall (fun a => utc_instant (Assessment.timestamp a)) records ->
  StronglySorted
    (fun a b => Datetime.compare (Assessment.timestamp a) (Assessment.timestamp b) = Lt)
    records ->
  Mongo.sort_desc "timestamp" (map Assessment.document records)
  = map Assessment.document (rev records).
Proof.
  intros Hutc Hs. induction Hs as [|a l Hl IH Ha]; [reflexivity|].
  inversion Hutc as [|? ? Hua Hul]; subst.
  simpl. rewrite (IH Hul), map_app. simpl.
  apply insert_desc_last.
  apply Forall_forall. intros d Hd.
  apply list_elem_of_In, in_map_iff in Hd. destruct Hd as (b & <- & Hb).
  apply in_rev in Hb.
  assert (Hub : utc_instant (Assessment.timestamp b)).
  { rewrite Forall_forall in Hul. apply Hul, list_elem_of_In. exact Hb. }
  assert (Hab : Datetime.compare (Assessment.timestamp a) (Assessment.timestamp b) = Lt).
  { rewrite Forall_forall in Ha. apply Ha, list_elem_of_In. exact Hb. }
  unfold Mongo.bson_leb. rewrite (bson_compare_documents b a Hub Hua).
  rewrite DatetimeFacts.compare_antisym, Hab. reflexivity.
Qed.

(** What a submission adds to the store: the document of the record it
    returns, or nothing when it returns none. *)
Lemma submit_submitted (e : string * datetime * AssessmentSubmission.t)
    (db : Mongo.database) :
  Mongo.assessments (submit db e)
  = Mongo.assessments db
    ++ map Assessment.document
         (match submitted e with Some a => [a] | None => [] end)
  /\ forall a, submitted e = Some a -> Assessment.timestamp a = e.1.2.
Proof.
  unfold submit, submitted.
  rewrite !(proj2 (create_assessment_eq _ _ _ _)). cbv zeta.
  destruct (fits_int64 _); cbn [fst snd Mongo.assessments map]; split;
    try reflexivity; try (symmetry; apply app_nil_r).
  - intros a [= <-]. reflexivity.
  - intros a H. discriminate H.
Qed.

Lemma submit_assessments
    (events : list (string * datetime * AssessmentSubmission.t))
    (db : Mongo.database) :
  Mongo.assessments (fold_left submit events db)
  = Mongo.assessments db ++ map Assessment.document (omap submitted events).
Proof.
  revert db. induction events as [|e events IH]; intros db; simpl.
  - symmetry. apply app_nil_r.
  - rewrite IH, (proj1 (submit_submitted e db)), <- app_assoc.
    destruct (submitted e); reflexivity.
Qed.

(** X15. With a clock that moves forward between submissions, the listing
    is the submissions in reverse: after a run of submissions from the
    empty database, each stamped strictly later than the one before,
    [get_all_assessments] returns the dumps of the returned records (a
    submission that raised returned none and stored nothing), the last
    submitted first, the first 10000 of them. *)
Theorem get_all_assessments_reverse_order
    (events : list (string * datetime * AssessmentSubmission.t)) :
  Forall (fun e => utc_instant e.1.2) events ->
  StronglySorted (fun e1 e2 => Datetime.compare e1.1.2 e2.1.2 = Lt) events ->
  get_all_assessments (fold_left submit events Mongo.empty)
  = Ok (map Assessment.model_dump
          (take (Z.to_nat 10000) (rev (omap submitted events)))).
Proof.
  intros Hutc Hs.
  assert (Hts : forall e a, submitted e = Some a -> Assessment.timestamp a = e.1.2)
    by (intros e; apply (submit_submitted e Mongo.empty)).
  assert (Hin : forall a l, In a (omap submitted l) ->
                  exists e, In e l /\ submitted e = Some a).
  { intros a l Ha. apply list_elem_of_In, list_elem_of_omap in Ha.
    destruct Ha as (e & He & Hsub). exists e. split; [|exact Hsub].
    apply list_elem_of_In. exact He. }
  assert (Hutc' : Forall (fun a => utc_instant (Assessment.timestamp a))
                    (omap submitted events)).
  { apply Forall_forall. intros a Ha.
    apply list_elem_of_In, Hin in Ha. destruct Ha as (e & He & Hsub).
    rewrite (Hts e a Hsub). rewrite Forall_forall in Hutc.
    apply Hutc, list_elem_of_In, He. }
  assert (Hs' : StronglySorted
                  (fun a b => Datetime.compare (Assessment.timestamp a)
                                (Assessment.timestamp b) = Lt)
                  (omap submitted events)).
  { clear -Hs Hts Hin. induction Hs as [|e l _ IH He]; [constructor|].
    cbn [omap list_omap]. destruct (submitted e) as [a|] eqn:Ea; [|exact IH].
    constructor; [exact IH|].
    apply Forall_forall. intros b Hb.
    apply list_elem_of_In, Hin in Hb. destruct Hb as (e' & He' & Hsub).
    rewrite (Hts e a Ea), (Hts e' b Hsub).
    rewrite Forall_forall in He. apply He, list_elem_of_In, He'. }
  unfold get_all_assessments, fetch_assessments, Mongo.to_list, Mongo.find.
  rewrite submit_assessments. simpl.
  rewrite (sort_desc_ascending _ Hutc' Hs').
  rewrite firstn_map. apply for_each_restore.
  apply Forall_take. apply Forall_forall. intros a Ha.
  apply list_elem_of_In, in_rev in Ha.
  rewrite Forall_forall in Hutc'. apply Hutc', list_elem_of_In, Ha.
Qed.

Lemma get_all_assessments_reverse_order_witness :
  Forall (fun e => utc_instant e.1.2) sample_events
  /\ StronglySorted (fun e1 e2 => Datetime.compare e1.1.2 e2.1.2 = Lt)
       sample_events
  /\ map Assessment.id (omap submitted sample_events) = ["id-1"; "id-2"]
  /\ get_all_assessments (fold_left submit sample_events Mongo.empty)
     = Ok (map Assessment.model_dump
             (take (Z.to_nat 10000) (rev (omap submitted sample_events)))).
Proof.
  assert (H1 : Forall (fun e => utc_instant e.1.2) sample_events)
    by (repeat constructor).
  assert (H2 : StronglySorted (fun e1 e2 => Datetime.compare e1.1.2 e2.1.2 = Lt)
                 sample_events)
    by (repeat constructor).
  split; [exact H1|]. split; [exact H2|]. split; [reflexivity|].
  exact (get_all_assessments_reverse_order sample_events H1 H2).
Defined.

(** ** Column widths of the export *)

Section ColumnWidthFacts.

Variable text_length : pyval -> Z.

Lemma max_length_fold (column : list pyval) (start : Z) :
  let longest :=
    fold_left
      (fun max_length cell =>
         if text_length cell >? max_length then text_length cell else max_length)
      column start in
  start <= longest
  /\ Forall (fun cell => text_length cell <= longest) column
  /\ (longest = start \/ exists cell, cell ∈ column /\ longest = text_length cell).
Proof.
  revert start. induction column as [|cell column IH]; intros start; simpl.
  - split; [lia|]. split; [constructor|left; reflexivity].
  - destruct (Z.gtb_spec (text_length cell) start) as [Hgt|Hle].
    + destruct (IH (text_length cell)) as (H1 & H2 & H3). split; [lia|].
      split; [constructor; [lia|exact H2]|]. right.
      destruct H3 as [->|(c & Hc & ->)].
      * exists cell. split; [left|reflexivity].
      * exists c. split; [right; exact Hc|reflexivity].
    + destruct (IH start) as (H1 & H2 & H3). split; [lia|].
      split; [constructor; [lia|exact H2]|].
      destruct H3 as [->|(c & Hc & ->)]; [left; reflexivity|].
      right. exists c. split; [right; exact Hc|reflexivity].
Qed.

Lemma adjusted_width_spec (column : list pyval) :
  2 <= adjusted_width text_length column <= 50
  /\ Forall (fun cell => Z.min (text_length cell + 2) 50
                         <= adjusted_width text_length column) column
  /\ (adjusted_width text_length column = 50
      \/ adjusted_width text_length column = 2
      \/ exists cell,
           cell ∈ column
           /\ adjusted_width text_length column = text_length cell + 2).
Proof.
  unfold adjusted_width, max_length.
  destruct (max_length_fold column 0) as (H1 & H2 & H3). cbv zeta in *.
  set (longest := fold_left _ column 0) in *.
  split; [lia|]. split.
  - eapply Forall_impl; [exact H2|]. intros cell Hc. simpl in Hc. lia.
  - destruct (Z.le_gt_cases 50 (longest + 2)) as [Hbig|Hsmall].
    + left. lia.
    + right. destruct H3 as [H0|(cell & Hc & Hl)].
      * left. lia.
      * right. exists cell. split; [exact Hc|]. lia.
Qed.

Lemma columns_of_export (rows : list (list pyval)) :
  Forall (fun row => length row = 8%nat) rows ->
  columns (headers :: rows)
  = map (fun i => map (fun row => nth i row VNone) (headers :: rows))
      [0; 1; 2; 3; 4; 5; 6; 7]%nat.
Proof.
  intros H. unfold columns.
  assert (Hmax : fold_right Nat.max 0%nat (map length (headers :: rows)) = 8%nat).
  { simpl. induction H as [|row rows Hrow _ IH]; [reflexivity|].
    simpl. rewrite Hrow. simpl in IH. lia. }
  rewrite Hmax. reflexivity.
Qed.

(** X16. The widths set on the exported sheet: there are eight, each
    between 2 and 50; every cell of a column, its header included, fits
    the width with two characters to spare unless the width is capped at
    50; and a width below 50 is 2 or exactly two more than the length of
    some cell of its column. *)
Theorem export_column_widths_spec (db : Mongo.database) (widths : list Z) :
  export_column_widths text_length db = Ok widths ->
  exists rows,
    export_assessments db = Ok (headers :: rows)
    /\ length widths = 8%nat
    /\ Forall2 (fun column w =>
         2 <= w <= 50
         /\ Forall (fun cell => Z.min (text_length cell + 2) 50 <= w) column
         /\ (w = 50 \/ w = 2
             \/ exists cell, cell ∈ column /\ w = text_length cell + 2))
         (columns (headers :: rows)) widths
    /\ Forall2 (fun header w => Z.min (text_length header + 2) 50 <= w)
         headers widths.
Proof.
  unfold export_column_widths.
  destruct (export_assessments db) as [table|] eqn:Hx; [|discriminate].
  destruct (export_assessments_shape db table Hx) as (rows & -> & _ & _ & H8).
  intros H.
  change (Ok (column_widths text_length (headers :: rows)) = Ok widths) in H.
  injection H as <-. exists rows.
  split; [reflexivity|].
  unfold column_widths. rewrite (columns_of_export _ H8).
  split; [reflexivity|]. split.
  - cbn [map]. repeat (constructor; [apply adjusted_width_spec|]).
    constructor.
  - cbn [map]. unfold headers.
    repeat (constructor;
            [match goal with
             | |- Z.min (text_length ?h + 2) 50 <= adjusted_width _ ?col =>
                 pose proof (proj1 (proj2 (adjusted_width_spec col))) as Hc;
                 inversion Hc; subst; assumption
             end|]).
    constructor.
Qed.

End ColumnWidthFacts.

Lemma export_column_widths_spec_witness :
  export_column_widths
    (fun v => match v with VStr s => Z.of_nat (String.length s) | _ => 2 end)
    sample_db
  = Ok [21; 11; 14; 8; 12; 12; 7; 22]
  /\ exists rows, export_assessments sample_db = Ok (headers :: rows).
Proof.
  assert (H : export_column_widths
                (fun v => match v with VStr s => Z.of_nat (String.length s) | _ => 2 end)
                sample_db
              = Ok [21; 11; 14; 8; 12; 12; 7; 22]) by reflexivity.
  split; [exact H|].
  destruct (export_column_widths_spec _ sample_db _ H) as (rows & Hex & _).
  exists rows. exact Hex.
Defined.

(** ** CORS origins *)

Lemma split_nonempty (sep : ascii) (s : string) : split sep s <> [].
Proof.
  destruct s as [|c s]; simpl; [discriminate|].
  destruct (Ascii.eqb c sep); [discriminate|].
  destruct (split sep s); discriminate.
Qed.

Lemma join_cons (sep : ascii) (piece : string) (pieces : list string) :
  pieces <> [] ->
  join sep (piece :: pieces) = String.append piece (String sep (join sep pieces)).
Proof. destruct pieces; [congruence|reflexivity]. Qed.

Lemma join_split (sep : ascii) (s : string) : join sep (split sep s) = s.
Proof.
  induction s as [|c s IH]; [reflexivity|]. simpl.
  destruct (Ascii.eqb_spec c sep) as [->|Hne].
  - rewrite join_cons by apply split_nonempty. simpl. rewrite IH. reflexivity.
  - pose proof (split_nonempty sep s) as Hs.
    destruct (split sep s) as [|piece pieces]; [congruence|].
    destruct pieces as [|p ps]; simpl in *; [congruence|].
    rewrite <- IH. reflexivity.
Qed.

Lemma split_no_sep (sep : ascii) (s : string) :
  Forall (fun piece => ~ In sep (list_ascii_of_string piece)) (split sep s).
Proof.
  induction s as [|c s IH]; simpl; [repeat constructor; intros []|].
  destruct (Ascii.eqb_spec c sep) as [->|Hne].
  - constructor; [intros []|exact IH].
  - destruct (split sep s) as [|piece pieces]; [repeat constructor; simpl; tauto|].
    inversion IH as [|? ? Hp Hps]; subst. constructor; [|exact Hps].
    simpl. intros [Heq|Hin]; [congruence|tauto].
Qed.

Lemma split_length (sep : ascii) (s : string) :
  length (split sep s)
  = S (count_occ ascii_dec (list_ascii_of_string s) sep).
Proof.
  induction s as [|c s IH]; [reflexivity|]. simpl.
  destruct (Ascii.eqb_spec c sep) as [->|Hne].
  - simpl. rewrite IH. destruct (ascii_dec sep sep); [reflexivity|congruence].
  - destruct (ascii_dec c sep); [congruence|].
    destruct (split sep s); simpl in *; [discriminate|exact IH].
Qed.

(** X17. The allowed origins are the comma-separated pieces of
    [CORS_ORIGINS] (of [*] when it is unset): there is always at least
    one, one more than there are commas; no piece holds a comma; joined
    with commas they give the setting back, so nothing is trimmed or
    dropped: empty pieces and surrounding blanks are kept. *)
Theorem allow_origins_spec (CORS_ORIGINS : option string) :
  allow_origins CORS_ORIGINS <> []
  /\ join "," (allow_origins CORS_ORIGINS)
     = match CORS_ORIGINS with Some v => v | None => "*" end
  /\ Forall (fun origin => ~ In ","%char (list_ascii_of_string origin))
       (allow_origins CORS_ORIGINS)
  /\ length (allow_origins CORS_ORIGINS)
     = S (count_occ ascii_dec
            (list_ascii_of_string
               match CORS_ORIGINS with Some v => v | None => "*" end)
            ","%char)
  /\ allow_origins None = ["*"]
  /\ allow_origins (Some "") = [""]
  /\ allow_origins (Some "http://a.example, http://b.example,")
     = ["http://a.example"; " http://b.example"; ""].
Proof.
  unfold allow_origins.
  split; [apply split_nonempty|]. split; [apply join_split|].
  split; [apply split_no_sep|]. split; [apply split_length|].
  repeat split.
Qed.

(** ** The test driver *)

Module KamchAPITesterFacts.
Import KamchAPITester.

(** What [log_test] keeps true of the counters. *)
Lemma log_test_invariant (self : t) (name : string) (ok : bool) (det : string) :
  tests_run self = Z.of_nat (length (test_results self)) ->
  tests_passed self
  = Z.of_nat (length (List.filter success (test_results self))) ->
  tests_run (log_test self name ok det)
  = Z.of_nat (length (test_results (log_test self name ok det)))
  /\ tests_passed (log_test self name ok det)
     = Z.of_nat (length (List.filter success
                           (test_results (log_test self name ok det)))).
Proof.
  intros Hrun Hpass. unfold log_test. destruct ok; simpl;
    rewrite List.filter_app, !length_app; simpl; lia.
Qed.

Lemma filter_success_failed (l : list test_result) :
  length l
  = (length (List.filter success l)
     + length (List.filter (fun test => negb (success test)) l))%nat.
Proof.
  induction l as [|r l IH]; [reflexivity|]. simpl.
  destruct (success r); simpl; lia.
Qed.

(** X18. The counters of the test driver agree with its log: after any
    sequence of [log_test] calls on a fresh tester, [tests_run] is the
    number of logged results, [tests_passed] the number of successful
    ones, the figure printed as failed is the number of entries listed as
    failed, and [run_all_tests] reports success exactly when that list is
    empty. *)
Theorem log_test_counters (url : string) (calls : list (string * bool * string)) :
  tests_run
    (fold_left (fun self call => log_test self call.1.1 call.1.2 call.2) calls
       (init url))
  = Z.of_nat (length calls)
  /\ test_results
       (fold_left (fun self call => log_test self call.1.1 call.1.2 call.2) calls
          (init url))
     = map (fun call => mk_test_result call.1.1 call.1.2 call.2) calls
  /\ tests_passed
       (fold_left (fun self call => log_test self call.1.1 call.1.2 call.2) calls
          (init url))
     = Z.of_nat (length (List.filter (fun call => call.1.2) calls))
  /\ 0 <= tests_passed
            (fold_left (fun self call => log_test self call.1.1 call.1.2 call.2)
               calls (init url))
       <= tests_run
            (fold_left (fun self call => log_test self call.1.1 call.1.2 call.2)
               calls (init url))
  /\ failed
       (fold_left (fun self call => log_test self call.1.1 call.1.2 call.2) calls
          (init url))
     = Z.of_nat
         (length
            (failed_tests
               (fold_left (fun self call => log_test self call.1.1 call.1.2 call.2)
                  calls (init url))))
  /\ (all_passed
        (fold_left (fun self call => log_test self call.1.1 call.1.2 call.2) calls
           (init url)) = true
      <-> failed_tests
            (fold_left (fun self call => log_test self call.1.1 call.1.2 call.2)
               calls (init url)) = []).
Proof.
  set (step := fun self (call : string * bool * string) =>
                 log_test self call.1.1 call.1.2 call.2).
  assert (Hres : forall calls self,
            test_results (fold_left step calls self)
            = test_results self
              ++ map (fun call => mk_test_result call.1.1 call.1.2 call.2) calls).
  { clear. intros calls. induction calls as [|c calls IH]; intros self; simpl.
    - symmetry. apply app_nil_r.
    - rewrite IH.
      assert (test_results (step self c)
              = test_results self ++ [mk_test_result c.1.1 c.1.2 c.2]) as ->
        by (unfold step, log_test; destruct c.1.2; reflexivity).
      rewrite <- app_assoc. reflexivity. }
  assert (Hinv : forall calls self,
            tests_run self = Z.of_nat (length (test_results self)) ->
            tests_passed self
            = Z.of_nat (length (List.filter success (test_results self))) ->
            tests_run (fold_left step calls self)
            = Z.of_nat (length (test_results (fold_left step calls self)))
            /\ tests_passed (fold_left step calls self)
               = Z.of_nat (length (List.filter success
                                     (test_results (fold_left step calls self))))).
  { clear. intros calls. induction calls as [|c calls IH]; intros self H1 H2; simpl.
    - split; assumption.
    - destruct (log_test_invariant self c.1.1 c.1.2 c.2 H1 H2) as [H1' H2'].
      apply IH; assumption. }
  destruct (Hinv calls (init url) eq_refl eq_refl) as [Hrun Hpass].
  specialize (Hres calls (init url)). simpl in Hres.
  set (final := fold_left step calls (init url)) in *.
  pose proof (filter_success_failed (test_results final)) as Hsplit.
  assert (Hlen : length (test_results final) = length calls)
    by (rewrite Hres; apply length_map).
  split; [lia|]. split; [exact Hres|]. split.
  - rewrite Hpass, Hres. f_equal. clear. induction calls as [|c calls IH];
      [reflexivity|]. simpl. destruct c.1.2; simpl; rewrite IH; reflexivity.
  - split; [lia|]. unfold failed, failed_tests, all_passed. split; [lia|].
    rewrite Z.eqb_eq. split.
    + intros Heq. apply length_zero_iff_nil. lia.
    + intros Hnil. rewrite Hnil in Hsplit. simpl in Hsplit. lia.
Qed.

End KamchAPITesterFacts.
